(** * Windows CRI network statistics: pkg/kubelet/stats/cri_stats_provider_windows.go

    A shallow embedding of [listContainerNetworkStats], [newHcsShim],
    [fetchContainerStats], [hcsStatsToNetworkStats] and
    [hcsStatsToInterfaceStats], and the properties of the collection pass:
    handle release, error merging, de-duplication of adapters, selection of
    the default interface and isolation of per-container and per-endpoint
    failures.

    The host compute service is reached only through [hcsShimInterface]; its
    answers are arbitrary functions of an abstract host state [World].  Every
    call that leaves the package (shim methods, methods of an opened
    container, klog) is recorded in a trace, so that "Close is called once"
    is a statement about the trace of a run. *)

From stdpp Require Import base option list strings gmap.
From Stdlib Require Import NArith ZArith Lia.

Local Open Scope string_scope.
Local Open Scope list_scope.

(** ** Go values *)

(** A slice is nil or a backing list; [len] and [range] do not tell them
    apart, a nil check does. *)
Definition slice (A : Type) : Type := option (list A).

Definition elems {A : Type} (s : slice A) : list A :=
  match s with
  | None => []
  | Some l => l
  end.

Definition len {A : Type} (s : slice A) : nat := length (elems s).

(** [make([]T, 0)] *)
Definition make_slice {A : Type} : slice A := Some [].

(** [append(s, x)]: the result of appending one element is never nil. *)
Definition append {A : Type} (s : slice A) (x : A) : slice A :=
  Some (elems s ++ [x]).

(** A pointer is nil or the value it points to.  No pointer of this file is
    written through after it has been created. *)
Definition ptr (A : Type) : Type := option A.

(** [uint64] counters are only copied, never computed with. *)
Definition uint64 : Type := N.

(** The [error] interface: a value is observed through [Error()] only.
    [errors.New] and [fmt.Errorf] without [%w] both build an [errorString]. *)
Record error : Type := errorString { Error : string }.

(** [time.Time] (the location pointer is left out). *)
Record time_Time : Type := mkTime { wall : N; ext : Z }.

Definition zero_Time : time_Time := {| wall := 0%N; ext := 0%Z |}.

Module metav1.
Record Time : Type := mk { Time_ : time_Time }.

Definition NewTime (t : time_Time) : Time := {| Time_ := t |}.
End metav1.

(** ** Package hcsshim: the types the provider reads *)

Module hcsshim.
Record ComputeSystemQuery : Type := {
  IDs : slice string;
  Types : slice string;
  Names : slice string;
  Owners : slice string
}.

(** Of the container properties only [ID] is read. *)
Record ContainerProperties : Type := {
  ID : string;
  SystemType : string;
  Owner : string
}.

Record NetworkStats : Type := {
  BytesReceived : uint64;
  BytesSent : uint64;
  PacketsReceived : uint64;
  PacketsSent : uint64;
  DroppedPacketsIncoming : uint64;
  DroppedPacketsOutgoing : uint64;
  EndpointId : string;
  InstanceId : string
}.

(** Of the statistics only the timestamp and the network counters are
    read. *)
Record Statistics : Type := {
  Timestamp : time_Time;
  Network : slice NetworkStats
}.

(** The zero value, which a named result holds until it is assigned. *)
Definition zero_Statistics : Statistics :=
  {| Timestamp := zero_Time; Network := None |}.

Record HNSEndpoint : Type := {
  Id : string;
  Name : string
}.
End hcsshim.

(** ** Package statsapi (k8s.io/kubelet/pkg/apis/stats/v1alpha1) *)

Module statsapi.
Record InterfaceStats : Type := {
  Name : string;
  RxBytes : ptr uint64;
  RxErrors : ptr uint64;
  TxBytes : ptr uint64;
  TxErrors : ptr uint64
}.

Definition zero_InterfaceStats : InterfaceStats :=
  {| Name := ""; RxBytes := None; RxErrors := None;
     TxBytes := None; TxErrors := None |}.

(** [InterfaceStats] is embedded by value (field [InterfaceStats_], the
    name of the type being taken): the default interface is a field of the
    struct, not a pointer into [Interfaces]. *)
Record NetworkStats : Type := {
  Time : metav1.Time;
  InterfaceStats_ : InterfaceStats;
  Interfaces : slice InterfaceStats
}.

(** Assignments to one field. *)
Definition set_Interfaces (interfaces : slice InterfaceStats)
    (result : NetworkStats) : NetworkStats :=
  {| Time := Time result; InterfaceStats_ := InterfaceStats_ result;
     Interfaces := interfaces |}.

Definition set_InterfaceStats (i : InterfaceStats)
    (result : NetworkStats) : NetworkStats :=
  {| Time := Time result; InterfaceStats_ := i;
     Interfaces := Interfaces result |}.
End statsapi.

(** ** Calls that leave the package *)

Inductive logValue : Type :=
| LogString (s : string)
| LogError (e : error).

Inductive Event : Type :=
| EvGetContainers (q : hcsshim.ComputeSystemQuery)
| EvGetHNSEndpointByID (endpointID : string)
| EvOpenContainer (id : string)
| EvStatistics (handle : N)
| EvClose (handle : N)
| EvInfoS (verbosity : nat) (msg : string) (keysAndValues : list (string * logValue)).

Definition is_close (e : Event) : bool :=
  match e with
  | EvClose _ => true
  | _ => false
  end.

Definition is_close_of (h : N) (e : Event) : bool :=
  match e with
  | EvClose h' => N.eqb h h'
  | _ => false
  end.

(** How often a run released any handle, and how often the handle [h]. *)
Definition closes (t : list Event) : nat := length (List.filter is_close t).

Definition closes_of (h : N) (t : list Event) : nat :=
  length (List.filter (is_close_of h) t).

(** [strings.Contains]-like: [part] occurs in [s]. *)
Definition names_cause (s part : string) : Prop :=
  exists pre post : string, s = pre +:+ part +:+ post.

Section Embedding.
Context {World : Type}.

(** A computation reads and updates the host state and emits a trace. *)
Definition M (A : Type) : Type := World -> A * World * list Event.

Definition ret {A : Type} (a : A) : M A := fun w => (a, w, []).

Definition bind {A B : Type} (m : M A) (k : A -> M B) : M B :=
  fun w =>
    let '(a, w1, t1) := m w in
    let '(b, w2, t2) := k a w1 in
    (b, w2, t1 ++ t2).

Definition value {A : Type} (r : A * World * list Event) : A := r.1.1.
Definition world {A : Type} (r : A * World * list Event) : World := r.1.2.
Definition trace {A : Type} (r : A * World * list Event) : list Event := r.2.

(** The [hcsshim.Container] interface: the value the host hands out
    ([handle]) together with its two methods used here.  A Go call that
    yields [(T, error)] with [T] a struct or slice is a pair; one that
    yields a pointer or interface value together with an error is a sum
    (the documented contract: exactly one of the two is nil). *)
Record Container : Type := {
  handle : N;
  Statistics : World -> (hcsshim.Statistics * option error) * World;
  Close : World -> option error * World
}.

Record hcsShimInterface : Type := {
  GetContainers :
    hcsshim.ComputeSystemQuery ->
    World -> (slice hcsshim.ContainerProperties * option error) * World;
  GetHNSEndpointByID :
    string -> World -> (hcsshim.HNSEndpoint + error) * World;
  OpenContainer : string -> World -> (Container + error) * World
}.

(** [criStatsProvider]: only the injected shim matters here; it is nil in
    production. *)
Record criStatsProvider : Type := {
  hcsshimInterface : option hcsShimInterface
}.

Definition call {A : Type} (f : World -> A * World) (e : Event) : M A :=
  fun w => let '(a, w1) := f w in (a, w1, [e]).

Definition klog_InfoS (v : nat) (msg : string)
    (kv : list (string * logValue)) : M unit :=
  fun w => (tt, w, [EvInfoS v msg kv]).
End Embedding.

Arguments M : clear implicits.
Arguments Container : clear implicits.
Arguments hcsShimInterface : clear implicits.
Arguments criStatsProvider : clear implicits.

Notation "'let*' x ':=' m 'in' k" := (bind m (fun x => k))
  (at level 10, x name, m at level 100, k at level 200, only parsing).

Section Provider.
Context {World : Type}.

(** [windowshim{}]: the production shim forwards to package hcsshim, whose
    behaviour is a parameter. *)
Variable windowshim : hcsShimInterface World.

(** The injected field is typed here, so the type assertion of the source
    always succeeds. *)
Definition newHcsShim (p : criStatsProvider World) : hcsShimInterface World :=
  match hcsshimInterface p with
  | None => windowshim
  | Some shim => shim
  end.

(** [fmt.Errorf("failed to close container after error %v; close error: %v",
    err, closeErr)]: [%v] prints an error through [Error()]. *)
Definition Errorf_close (err closeErr : error) : error :=
  errorString
    ("failed to close container after error " +:+ Error err +:+
     "; close error: " +:+ Error closeErr).

(** The deferred closure of [fetchContainerStats]: it runs after the
    results [(stats, err)] have been assigned and may overwrite [err]. *)
Definition deferred_close (container : Container World)
    (res : hcsshim.Statistics * option error)
    : M World (hcsshim.Statistics * option error) :=
  let* closeErr := call (Close container) (EvClose (handle container)) in
  match closeErr with
  | Some ce =>
      match res.2 with
      | Some e => ret (res.1, Some (Errorf_close e ce))
      | None => ret (res.1, Some ce)
      end
  | None => ret res
  end.

Definition fetchContainerStats (shim : hcsShimInterface World)
    (c : hcsshim.ContainerProperties)
    : M World (hcsshim.Statistics * option error) :=
  let* r := call (OpenContainer shim (hcsshim.ID c))
                 (EvOpenContainer (hcsshim.ID c)) in
  match r with
  | inr err => ret (hcsshim.zero_Statistics, Some err)
  | inl container =>
      let* res := call (Statistics container)
                       (EvStatistics (handle container)) in
      deferred_close container res
  end.

(** [hcsStatsToInterfaceStats]: [stat] is the callee's own copy, so the
    two pointers of the result are to cells nobody else writes. *)
Definition hcsStatsToInterfaceStats (shim : hcsShimInterface World)
    (stat : hcsshim.NetworkStats) : M World (statsapi.InterfaceStats + error) :=
  let* r := call (GetHNSEndpointByID shim (hcsshim.EndpointId stat))
                 (EvGetHNSEndpointByID (hcsshim.EndpointId stat)) in
  match r with
  | inr err => ret (inr err)
  | inl endpoint =>
      ret (inl {| statsapi.Name := hcsshim.Name endpoint;
                  statsapi.RxBytes := Some (hcsshim.BytesReceived stat);
                  statsapi.RxErrors := None;
                  statsapi.TxBytes := Some (hcsshim.BytesSent stat);
                  statsapi.TxErrors := None |})
  end.

(** The [for _, stat := range hcsStats] loop of [hcsStatsToNetworkStats],
    over [result.Interfaces] and the set [adapters]. *)
Fixpoint range_hcsStats (shim : hcsShimInterface World)
    (hcsStats : list hcsshim.NetworkStats)
    (interfaces : slice statsapi.InterfaceStats) (adapters : gset string)
    : M World (slice statsapi.InterfaceStats * gset string) :=
  match hcsStats with
  | [] => ret (interfaces, adapters)
  | stat :: rest =>
      let* r := hcsStatsToInterfaceStats shim stat in
      match r with
      | inr err =>
          let* _ := klog_InfoS 0
            "Failed to get HNS endpoint, continue to get stats for other endpoints"
            [("endpointID", LogString (hcsshim.EndpointId stat));
             ("err", LogError err)] in
          range_hcsStats shim rest interfaces adapters
      | inl iStat =>
          if decide (statsapi.Name iStat ∈ adapters)
          then range_hcsStats shim rest interfaces adapters
          else range_hcsStats shim rest (append interfaces iStat)
                 ({[statsapi.Name iStat]} ∪ adapters)
      end
  end.

(** The result is a pointer to a fresh struct. *)
Definition hcsStatsToNetworkStats (shim : hcsShimInterface World)
    (timestamp : time_Time) (hcsStats : slice hcsshim.NetworkStats)
    : M World (ptr statsapi.NetworkStats) :=
  let result := {| statsapi.Time := metav1.NewTime timestamp;
                   statsapi.InterfaceStats_ := statsapi.zero_InterfaceStats;
                   statsapi.Interfaces := make_slice |} in
  let* st := range_hcsStats shim (elems hcsStats)
               (statsapi.Interfaces result) ∅ in
  let result := statsapi.set_Interfaces st.1 result in
  match elems (statsapi.Interfaces result) with
  | first :: _ => ret (Some (statsapi.set_InterfaceStats first result))
  | [] => ret (Some result)
  end.

(** The [for _, c := range containers] loop of
    [listContainerNetworkStats], over the map [stats]. *)
Fixpoint range_containers (shim : hcsShimInterface World)
    (containers : list hcsshim.ContainerProperties)
    (stats : gmap string (ptr statsapi.NetworkStats))
    : M World (gmap string (ptr statsapi.NetworkStats)) :=
  match containers with
  | [] => ret stats
  | c :: rest =>
      let* res := fetchContainerStats shim c in
      match res.2 with
      | Some err =>
          let* _ := klog_InfoS 4
            "Failed to fetch statistics for container, continue to get stats for other containers"
            [("containerID", LogString (hcsshim.ID c));
             ("err", LogError err)] in
          range_containers shim rest stats
      | None =>
          let cstats := res.1 in
          if decide (0 < len (hcsshim.Network cstats))
          then
            let* r := hcsStatsToNetworkStats shim
                        (hcsshim.Timestamp cstats) (hcsshim.Network cstats) in
            range_containers shim rest (<[hcsshim.ID c := r]> stats)
          else range_containers shim rest stats
      end
  end.

Definition container_query : hcsshim.ComputeSystemQuery :=
  {| hcsshim.IDs := None; hcsshim.Types := Some ["Container"];
     hcsshim.Names := None; hcsshim.Owners := None |}.

(** The result pair of Go: a nil map is [None]. *)
Definition listContainerNetworkStats (p : criStatsProvider World)
    : M World (option (gmap string (ptr statsapi.NetworkStats)) * option error) :=
  let shim := newHcsShim p in
  let* res := call (GetContainers shim container_query)
                   (EvGetContainers container_query) in
  match res.2 with
  | Some err => ret (None, Some err)
  | None =>
      let* stats := range_containers shim (elems res.1) ∅ in
      ret (Some stats, None)
  end.
End Provider.

Arguments newHcsShim {World} windowshim p.
Arguments listContainerNetworkStats {World} windowshim p.

(** ** Specification-side vocabulary *)

(** The interface a counter stands for once its endpoint is known. *)
Definition interface_of (endpoint : hcsshim.HNSEndpoint)
    (stat : hcsshim.NetworkStats) : statsapi.InterfaceStats :=
  {| statsapi.Name := hcsshim.Name endpoint;
     statsapi.RxBytes := Some (hcsshim.BytesReceived stat);
     statsapi.RxErrors := None;
     statsapi.TxBytes := Some (hcsshim.BytesSent stat);
     statsapi.TxErrors := None |}.

(** A result without interfaces: an initialised empty slice and the zero
    value in the embedded field. *)
Definition empty_result (timestamp : time_Time) : statsapi.NetworkStats :=
  {| statsapi.Time := metav1.NewTime timestamp;
     statsapi.InterfaceStats_ := statsapi.zero_InterfaceStats;
     statsapi.Interfaces := Some [] |}.

Section Outcomes.
Context {World : Type}.

(** The answers the resolver gave, counter by counter, in one pass over
    the counters starting in host state [w]. *)
Fixpoint resolutions (shim : hcsShimInterface World)
    (hcsStats : list hcsshim.NetworkStats)
    : M World (list (statsapi.InterfaceStats + error)) :=
  match hcsStats with
  | [] => ret []
  | stat :: rest =>
      let* r := hcsStatsToInterfaceStats shim stat in
      let* rs := resolutions shim rest in
      ret (r :: rs)
  end.

Definition resolved (rs : list (statsapi.InterfaceStats + error))
    : list statsapi.InterfaceStats :=
  omap (fun r => match r with inl i => Some i | inr _ => None end) rs.

Definition has_name (name : string) (i : statsapi.InterfaceStats) : bool :=
  bool_decide (statsapi.Name i = name).

(** First occurrence wins: keep an interface unless its name was seen. *)
Fixpoint first_wins (seen : gset string)
    (l : list statsapi.InterfaceStats) : list statsapi.InterfaceStats :=
  match l with
  | [] => []
  | i :: rest =>
      if decide (statsapi.Name i ∈ seen) then first_wins seen rest
      else i :: first_wins ({[statsapi.Name i]} ∪ seen) rest
  end.

Definition gets_entry (res : hcsshim.Statistics * option error) : bool :=
  bool_decide (res.2 = None ∧ 0 < len (hcsshim.Network res.1)).

(** What [fetchContainerStats] returned for each container of one pass of
    [range_containers] starting in host state [w]. *)
Fixpoint fetches (shim : hcsShimInterface World)
    (containers : list hcsshim.ContainerProperties) (w : World)
    : list (hcsshim.ContainerProperties * (hcsshim.Statistics * option error)) :=
  match containers with
  | [] => []
  | c :: rest =>
      let r := fetchContainerStats shim c w in
      let w1 :=
        if gets_entry (value r)
        then world (hcsStatsToNetworkStats shim
                      (hcsshim.Timestamp (value r).1)
                      (hcsshim.Network (value r).1) (world r))
        else world r in
      (c, value r) :: fetches shim rest w1
  end.
End Outcomes.

(** ** A test double

    The host state of the double is the list of handles currently open. *)

Record fakeContainer : Type := {
  fc_props : hcsshim.ContainerProperties;
  fc_handle : N;
  fc_open : option error;
  fc_stats : hcsshim.Statistics * option error;
  fc_close : option error
}.

Definition fake_Container (fc : fakeContainer) : Container (list N) :=
  {| handle := fc_handle fc;
     Statistics := fun w => (fc_stats fc, w);
     Close := fun w =>
       (fc_close fc, List.filter (fun h => negb (N.eqb h (fc_handle fc))) w) |}.

Definition fakehcsshim (enumeration : option error)
    (containers : list fakeContainer)
    (endpoints : list (string * (hcsshim.HNSEndpoint + error)))
    : hcsShimInterface (list N) :=
  {| GetContainers := fun _ w =>
       match enumeration with
       | Some err => ((None, Some err), w)
       | None => ((Some (List.map fc_props containers), None), w)
       end;
     GetHNSEndpointByID := fun endpointID w =>
       match List.find (fun e => String.eqb e.1 endpointID) endpoints with
       | Some e => (e.2, w)
       | None => (inr (errorString "endpoint not found"), w)
       end;
     OpenContainer := fun id w =>
       match List.find
               (fun fc => String.eqb (hcsshim.ID (fc_props fc)) id) containers with
       | Some fc =>
           match fc_open fc with
           | Some err => (inr err, w)
           | None => (inl (fake_Container fc), fc_handle fc :: w)
           end
       | None => (inr (errorString "container not found"), w)
       end |}.

Definition counter (endpointID : string) (rx tx : uint64) : hcsshim.NetworkStats :=
  {| hcsshim.BytesReceived := rx; hcsshim.BytesSent := tx;
     hcsshim.PacketsReceived := 0%N; hcsshim.PacketsSent := 0%N;
     hcsshim.DroppedPacketsIncoming := 0%N; hcsshim.DroppedPacketsOutgoing := 0%N;
     hcsshim.EndpointId := endpointID; hcsshim.InstanceId := "" |}.

Arguments counter endpointID%_string (rx tx)%_N.

Definition props (id : string) : hcsshim.ContainerProperties :=
  {| hcsshim.ID := id; hcsshim.SystemType := "Container"; hcsshim.Owner := "" |}.

Definition iface (name : string) (rx tx : uint64) : statsapi.InterfaceStats :=
  {| statsapi.Name := name; statsapi.RxBytes := Some rx; statsapi.RxErrors := None;
     statsapi.TxBytes := Some tx; statsapi.TxErrors := None |}.

Arguments iface name%_string (rx tx)%_N.

Definition t0 : time_Time := {| wall := 1000%N; ext := 0%Z |}.

Definition healthy (id : string) (h : N) (net : list hcsshim.NetworkStats)
    : fakeContainer :=
  {| fc_props := props id; fc_handle := h; fc_open := None;
     fc_stats := ({| hcsshim.Timestamp := t0; hcsshim.Network := Some net |}, None);
     fc_close := None |}.

Arguments healthy id%_string h%_N net%_list.

Definition fake_endpoints : list (string * (hcsshim.HNSEndpoint + error)) :=
  [("ep1", inl {| hcsshim.Id := "ep1"; hcsshim.Name := "eth0" |});
   ("ep2", inr (errorString "endpoint gone"));
   ("ep3", inl {| hcsshim.Id := "ep3"; hcsshim.Name := "eth1" |});
   ("ep4", inl {| hcsshim.Id := "ep4"; hcsshim.Name := "eth0" |})].

Definition fake_B : fakeContainer :=
  {| fc_props := props "B"; fc_handle := 2%N;
     fc_open := Some (errorString "open failed");
     fc_stats := (hcsshim.zero_Statistics, None); fc_close := None |}.

Definition fake_D : fakeContainer :=
  {| fc_props := props "D"; fc_handle := 4%N; fc_open := None;
     fc_stats := (hcsshim.zero_Statistics, Some (errorString "stats failed"));
     fc_close := Some (errorString "close failed") |}.

Definition stats_E : hcsshim.Statistics :=
  {| hcsshim.Timestamp := t0; hcsshim.Network := Some [counter "ep1" 1 2] |}.

Definition fake_E : fakeContainer :=
  {| fc_props := props "E"; fc_handle := 5%N; fc_open := None;
     fc_stats := (stats_E, None);
     fc_close := Some (errorString "close failed") |}.

(** [A] and [C] are healthy, [B] cannot be opened, [D] fails to answer and
    to close, [E] answers but fails to close, [F] has no counters, the only
    endpoint of [G] does not resolve. *)
Definition fake_containers : list fakeContainer :=
  [healthy "A" 1 [counter "ep1" 100 50]; fake_B;
   healthy "C" 3 [counter "ep3" 7 8]; fake_D; fake_E;
   healthy "F" 6 []; healthy "G" 7 [counter "ep2" 1 1]].

Definition fake : hcsShimInterface (list N) :=
  fakehcsshim None fake_containers fake_endpoints.

Definition fake_provider : criStatsProvider (list N) :=
  {| hcsshimInterface := Some fake |}.

(** The enumeration of the scenario "the second of three cannot be
    opened". *)
Definition fake3 : hcsShimInterface (list N) :=
  fakehcsshim None
    [healthy "A" 1 [counter "ep1" 100 50]; fake_B;
     healthy "C" 3 [counter "ep3" 7 8]]
    fake_endpoints.

Definition fake3_provider : criStatsProvider (list N) :=
  {| hcsshimInterface := Some fake3 |}.

(** The same with a first container that has no network endpoint. *)
Definition fake3_idle : hcsShimInterface (list N) :=
  fakehcsshim None
    [healthy "F" 6 []; fake_B; healthy "C" 3 [counter "ep3" 7 8]]
    fake_endpoints.

Definition fake3_idle_provider : criStatsProvider (list N) :=
  {| hcsshimInterface := Some fake3_idle |}.

Definition result_of (interfaces : list statsapi.InterfaceStats)
    : ptr statsapi.NetworkStats :=
  Some {| statsapi.Time := metav1.NewTime t0;
          statsapi.InterfaceStats_ := List.hd statsapi.zero_InterfaceStats interfaces;
          statsapi.Interfaces := Some interfaces |}.

(** ** Reading a trace

    The calls of one kind, in the order in which they were made. *)

Definition opened (t : list Event) : list string :=
  omap (fun e => match e with EvOpenContainer id => Some id | _ => None end) t.

Definition queried (t : list Event) : list N :=
  omap (fun e => match e with EvStatistics h => Some h | _ => None end) t.

Definition closed (t : list Event) : list N :=
  omap (fun e => match e with EvClose h => Some h | _ => None end) t.

Definition lookups (t : list Event) : list string :=
  omap (fun e => match e with EvGetHNSEndpointByID id => Some id | _ => None end) t.

Definition enumerations (t : list Event) : list hcsshim.ComputeSystemQuery :=
  omap (fun e => match e with EvGetContainers q => Some q | _ => None end) t.

(** The key/value lists logged at verbosity [v]. *)
Definition logged (v : nat) (t : list Event) : list (list (string * logValue)) :=
  omap (fun e => match e with
                 | EvInfoS v' _ kv => if decide (v' = v) then Some kv else None
                 | _ => None
                 end) t.

(** The counters whose endpoint did not resolve, with the error, as the
    loop of [hcsStatsToNetworkStats] logs them. *)
Fixpoint failed_endpoints (hcsStats : list hcsshim.NetworkStats)
    (rs : list (statsapi.InterfaceStats + error))
    : list (list (string * logValue)) :=
  match hcsStats, rs with
  | stat :: hcsStats', inr err :: rs' =>
      [("endpointID", LogString (hcsshim.EndpointId stat)); ("err", LogError err)]
      :: failed_endpoints hcsStats' rs'
  | _ :: hcsStats', inl _ :: rs' => failed_endpoints hcsStats' rs'
  | _, _ => []
  end.

(** The containers whose fetch returned an error, with the error, as the
    loop of [listContainerNetworkStats] logs them. *)
Definition failed_containers
    (fs : list (hcsshim.ContainerProperties * (hcsshim.Statistics * option error)))
    : list (list (string * logValue)) :=
  omap (fun f : hcsshim.ContainerProperties * (hcsshim.Statistics * option error) =>
          match f.2.2 with
          | Some err =>
              Some [("containerID", LogString (hcsshim.ID f.1)); ("err", LogError err)]
          | None => None
          end) fs.

(** The events of the loop of [hcsStatsToNetworkStats] when the resolver
    answers [rs]: one lookup per counter, followed by a log line when it
    failed. *)
Fixpoint lookup_events (hcsStats : list hcsshim.NetworkStats)
    (rs : list (statsapi.InterfaceStats + error)) : list Event :=
  match hcsStats, rs with
  | stat :: hcsStats', r :: rs' =>
      EvGetHNSEndpointByID (hcsshim.EndpointId stat)
      :: match r with
         | inr err =>
             [EvInfoS 0
                "Failed to get HNS endpoint, continue to get stats for other endpoints"
                [("endpointID", LogString (hcsshim.EndpointId stat));
                 ("err", LogError err)]]
         | inl _ => []
         end ++ lookup_events hcsStats' rs'
  | _, _ => []
  end.

(** What can be said of the entry [entry] stored under [id], given the
    fetches [fs] of the pass: it is the result for a container of that
    identifier that was fetched without error and has counters. *)
Definition well_formed_entry
    (fs : list (hcsshim.ContainerProperties * (hcsshim.Statistics * option error)))
    (id : string) (entry : ptr statsapi.NetworkStats) : Prop :=
  exists c res result,
    (c, res) ∈ fs
    /\ hcsshim.ID c = id /\ res.2 = None
    /\ entry = Some result
    /\ statsapi.Time result = metav1.NewTime (hcsshim.Timestamp res.1)
    /\ NoDup (statsapi.Name <$> elems (statsapi.Interfaces result))
    /\ statsapi.InterfaceStats_ result =
         List.hd statsapi.zero_InterfaceStats (elems (statsapi.Interfaces result))
    /\ 0 < len (hcsshim.Network res.1)
    /\ len (statsapi.Interfaces result) <= len (hcsshim.Network res.1).

(** The map of a pass over the test double. *)
Definition fake_stats : gmap string (ptr statsapi.NetworkStats) :=
  <["G" := result_of []]>
    (<["C" := result_of [iface "eth1" 7 8]]>
       (<["A" := result_of [iface "eth0" 100 50]]> ∅)).

(** What the host answered to the lookup of each counter's endpoint, in one
    pass over the counters from host state [w]: the counter with the answer
    of [GetHNSEndpointByID] to its [EndpointId]. *)
Fixpoint endpoint_answers {World : Type} (shim : hcsShimInterface World)
    (hcsStats : list hcsshim.NetworkStats) (w : World)
    : list (hcsshim.NetworkStats * (hcsshim.HNSEndpoint + error)) :=
  match hcsStats with
  | [] => []
  | stat :: rest =>
      let a := GetHNSEndpointByID shim (hcsshim.EndpointId stat) w in
      (stat, a.1) :: endpoint_answers shim rest a.2
  end.

(** The interfaces of the counters whose endpoint the host knew: the name
    of the endpoint with the byte counters of the counter. *)
Definition answered
    (answers : list (hcsshim.NetworkStats * (hcsshim.HNSEndpoint + error)))
    : list statsapi.InterfaceStats :=
  omap (fun a : hcsshim.NetworkStats * (hcsshim.HNSEndpoint + error) =>
          match a.2 with
          | inl endpoint =>
              Some {| statsapi.Name := hcsshim.Name endpoint;
                      statsapi.RxBytes := Some (hcsshim.BytesReceived a.1);
                      statsapi.RxErrors := None;
                      statsapi.TxBytes := Some (hcsshim.BytesSent a.1);
                      statsapi.TxErrors := None |}
          | inr _ => None
          end) answers.

(** The host answered this counter's lookup with an endpoint named
    [name]. *)
Definition resolves_to (name : string)
    (a : hcsshim.NetworkStats * (hcsshim.HNSEndpoint + error)) : bool :=
  match a.2 with
  | inl endpoint => bool_decide (hcsshim.Name endpoint = name)
  | inr _ => false
  end.

(** The handles the host handed out during one pass of [range_containers]
    from host state [w]: for every container, in order, the handle of the
    container [OpenContainer] returned, if it returned one. *)
Fixpoint handed_out {World : Type} (shim : hcsShimInterface World)
    (containers : list hcsshim.ContainerProperties) (w : World) : list N :=
  match containers with
  | [] => []
  | c :: rest =>
      let r := fetchContainerStats shim c w in
      let w1 :=
        if gets_entry (value r)
        then world (hcsStatsToNetworkStats shim
                      (hcsshim.Timestamp (value r).1)
                      (hcsshim.Network (value r).1) (world r))
        else world r in
      match (OpenContainer shim (hcsshim.ID c) w).1 with
      | inl container => [handle container]
      | inr _ => []
      end ++ handed_out shim rest w1
  end.

(** A host that enumerates no container. *)
Definition fake_idle : hcsShimInterface (list N) :=
  fakehcsshim None [] fake_endpoints.

Definition fake_idle_provider : criStatsProvider (list N) :=
  {| hcsshimInterface := Some fake_idle |}.

(** ** The monad *)

Section Laws.
Context {World : Type}.
Implicit Types w : World.

Lemma value_bind {A B : Type} (m : M World A) (k : A -> M World B) w :
  value (bind m k w) = value (k (value (m w)) (world (m w))).
Proof.
  unfold bind, value, world. destruct (m w) as [[a w1] t1]. simpl.
  destruct (k a w1) as [[b w2] t2]. reflexivity.
Qed.

Lemma world_bind {A B : Type} (m : M World A) (k : A -> M World B) w :
  world (bind m k w) = world (k (value (m w)) (world (m w))).
Proof.
  unfold bind, value, world. destruct (m w) as [[a w1] t1]. simpl.
  destruct (k a w1) as [[b w2] t2]. reflexivity.
Qed.

Lemma trace_bind {A B : Type} (m : M World A) (k : A -> M World B) w :
  trace (bind m k w) = trace (m w) ++ trace (k (value (m w)) (world (m w))).
Proof.
  unfold bind, value, world, trace. destruct (m w) as [[a w1] t1]. simpl.
  destruct (k a w1) as [[b w2] t2]. reflexivity.
Qed.

Lemma value_call {A : Type} (f : World -> A * World) (e : Event) w :
  value (call f e w) = (f w).1.
Proof. unfold call, value. destruct (f w). reflexivity. Qed.

Lemma world_call {A : Type} (f : World -> A * World) (e : Event) w :
  world (call f e w) = (f w).2.
Proof. unfold call, world. destruct (f w). reflexivity. Qed.

Lemma trace_call {A : Type} (f : World -> A * World) (e : Event) w :
  trace (call f e w) = [e].
Proof. unfold call, trace. destruct (f w). reflexivity. Qed.

End Laws.

Create Rewrite HintDb run.
#[export] Hint Rewrite @value_bind @world_bind @trace_bind
  @value_call @world_call @trace_call : run.

Ltac run := autorewrite with run; cbn [value world trace ret fst snd].

(** ** fetchContainerStats *)

Section Fetch.
Context {World : Type}.
Variable shim : hcsShimInterface World.
Implicit Types (w : World) (c : hcsshim.ContainerProperties).

Lemma fetch_open_failed c w err w1 :
  OpenContainer shim (hcsshim.ID c) w = (inr err, w1) ->
  fetchContainerStats shim c w =
    ((hcsshim.zero_Statistics, Some err), w1, [EvOpenContainer (hcsshim.ID c)]).
Proof.
  intros Hopen. unfold fetchContainerStats, bind, call. rewrite Hopen.
  reflexivity.
Qed.

Lemma fetch_opened c w container w1 :
  OpenContainer shim (hcsshim.ID c) w = (inl container, w1) ->
  fetchContainerStats shim c w =
    let '(res, w2) := Statistics container w1 in
    let '(closeErr, w3) := Close container w2 in
    (match closeErr with
     | Some ce =>
         match res.2 with
         | Some e => (res.1, Some (Errorf_close e ce))
         | None => (res.1, Some ce)
         end
     | None => res
     end, w3,
     [EvOpenContainer (hcsshim.ID c); EvStatistics (handle container);
      EvClose (handle container)]).
Proof.
  intros Hopen. unfold fetchContainerStats, deferred_close, bind, call.
  rewrite Hopen. destruct (Statistics container w1) as [res w2].
  destruct (Close container w2) as [[ce|] w3]; [destruct res.2|]; reflexivity.
Qed.
End Fetch.

Lemma append_nil_r (s : string) : s +:+ "" = s.
Proof.
  induction s as [|a s IH]; [reflexivity|]. exact (f_equal (String a) IH).
Qed.

Lemma append_assoc (s1 s2 s3 : string) :
  (s1 +:+ s2) +:+ s3 = s1 +:+ s2 +:+ s3.
Proof.
  induction s1 as [|a s1 IH]; [reflexivity|]. exact (f_equal (String a) IH).
Qed.

Section Release.
Context {World : Type}.
Variable shim : hcsShimInterface World.
Implicit Types (w : World) (c : hcsshim.ContainerProperties).

(** C1: when [OpenContainer] succeeds, a run of [fetchContainerStats]
    makes exactly the calls open, [Statistics], [Close], so [Close] is
    called exactly once and on the handle just opened, whatever
    [Statistics] and [Close] answer; when [OpenContainer] fails, no
    [Close] is called at all. *)
Theorem fetchContainerStats_releases_once c w :
  let t := trace (fetchContainerStats shim c w) in
  match (OpenContainer shim (hcsshim.ID c) w).1 with
  | inl container =>
      t = [EvOpenContainer (hcsshim.ID c); EvStatistics (handle container);
           EvClose (handle container)]
      /\ closes t = 1 /\ closes_of (handle container) t = 1
  | inr _ => t = [EvOpenContainer (hcsshim.ID c)] /\ closes t = 0
  end.
Proof.
  destruct (OpenContainer shim (hcsshim.ID c) w) as [[container|err] w1] eqn:Hopen;
    cbn [fst].
  - rewrite (fetch_opened shim c w container w1 Hopen).
    destruct (Statistics container w1) as [res w2].
    destruct (Close container w2) as [closeErr w3].
    cbn [trace snd]. split; [reflexivity|].
    unfold closes, closes_of. cbn. rewrite N.eqb_refl. split; reflexivity.
  - rewrite (fetch_open_failed shim c w err w1 Hopen).
    split; reflexivity.
Qed.

(** C2: when both the statistics query and [Close] fail, the error
    returned by [fetchContainerStats] is the one built by [fmt.Errorf],
    and its text contains the text of the query error and the text of the
    close error. *)
Theorem fetchContainerStats_names_both_errors
    c w container w1 stats queryErr w2 closeErr w3 :
  OpenContainer shim (hcsshim.ID c) w = (inl container, w1) ->
  Statistics container w1 = ((stats, Some queryErr), w2) ->
  Close container w2 = (Some closeErr, w3) ->
  exists err,
    value (fetchContainerStats shim c w) = (stats, Some err)
    /\ Error err =
         "failed to close container after error " +:+ Error queryErr +:+
         "; close error: " +:+ Error closeErr
    /\ names_cause (Error err) (Error queryErr)
    /\ names_cause (Error err) (Error closeErr).
Proof.
  intros Hopen Hstats Hclose.
  rewrite (fetch_opened shim c w container w1 Hopen), Hstats, Hclose.
  exists (Errorf_close queryErr closeErr). cbn [value fst snd].
  split; [reflexivity|]. split; [reflexivity|]. split.
  - exists "failed to close container after error ",
      ("; close error: " +:+ Error closeErr). reflexivity.
  - exists ("failed to close container after error " +:+ Error queryErr +:+
            "; close error: "), "".
    cbn [Errorf_close Error].
    rewrite append_nil_r, !append_assoc. reflexivity.
Qed.
End Release.

(** ** First occurrence wins *)

Lemma first_wins_fresh (seen : gset string) (l : list statsapi.InterfaceStats)
    (i : statsapi.InterfaceStats) :
  i ∈ first_wins seen l -> statsapi.Name i ∉ seen.
Proof.
  revert seen. induction l as [|j l IH]; intros seen; cbn.
  - intros Hin. inversion Hin.
  - destruct (decide (statsapi.Name j ∈ seen)) as [Hseen|Hnew].
    + apply IH.
    + intros Hin. apply elem_of_cons in Hin as [->|Hin]; [exact Hnew|].
      apply IH in Hin. set_solver.
Qed.

Lemma first_wins_NoDup (seen : gset string) (l : list statsapi.InterfaceStats) :
  NoDup (statsapi.Name <$> first_wins seen l).
Proof.
  revert seen. induction l as [|j l IH]; intros seen; cbn.
  - constructor.
  - destruct (decide (statsapi.Name j ∈ seen)) as [Hseen|Hnew]; [apply IH|].
    rewrite fmap_cons. constructor; [|apply IH].
    intros Hin. apply list_elem_of_fmap in Hin as (i & Hname & Hin).
    apply first_wins_fresh in Hin. set_solver.
Qed.

Lemma first_wins_filter (seen : gset string) (l : list statsapi.InterfaceStats)
    (name : string) :
  List.filter (has_name name) (first_wins seen l) =
    if decide (name ∈ seen) then []
    else match List.find (has_name name) l with
         | Some first => [first]
         | None => []
         end.
Proof.
  revert seen. induction l as [|j l IH]; intros seen; cbn.
  - destruct (decide (name ∈ seen)); reflexivity.
  - unfold has_name at 2. destruct (decide (statsapi.Name j ∈ seen)) as [Hseen|Hnew].
    + rewrite IH. destruct (decide (name ∈ seen)) as [Hin|Hout]; [reflexivity|].
      rewrite bool_decide_eq_false_2; [reflexivity|]. congruence.
    + cbn. unfold has_name at 1. case_bool_decide as Hname.
      * rewrite IH. subst name.
        rewrite decide_True by set_solver.
        rewrite decide_False by exact Hnew. reflexivity.
      * rewrite IH.
        destruct (decide (name ∈ seen)) as [Hin|Hout].
        -- rewrite decide_True by set_solver. reflexivity.
        -- rewrite decide_False; [reflexivity|].
           intros [Heq%elem_of_singleton|Hin]%elem_of_union; [congruence|done].
Qed.

Lemma first_wins_sublist (seen : gset string) (l : list statsapi.InterfaceStats) :
  sublist (first_wins seen l) l.
Proof.
  revert seen. induction l as [|j l IH]; intros seen; cbn.
  - constructor.
  - destruct (decide (statsapi.Name j ∈ seen)).
    + apply sublist_cons, IH.
    + apply sublist_skip, IH.
Qed.

(** ** hcsStatsToNetworkStats *)

Section Aggregate.
Context {World : Type}.
Variable shim : hcsShimInterface World.
Implicit Types (w : World) (stat : hcsshim.NetworkStats).

Lemma resolve_run stat w :
  hcsStatsToInterfaceStats shim stat w =
    (match (GetHNSEndpointByID shim (hcsshim.EndpointId stat) w).1 with
     | inl endpoint => inl (interface_of endpoint stat)
     | inr err => inr err
     end,
     (GetHNSEndpointByID shim (hcsshim.EndpointId stat) w).2,
     [EvGetHNSEndpointByID (hcsshim.EndpointId stat)]).
Proof.
  unfold hcsStatsToInterfaceStats, bind, call.
  destruct (GetHNSEndpointByID shim (hcsshim.EndpointId stat) w) as [[ep|err] w1];
    reflexivity.
Qed.

(** The loop computes [first_wins] of the interfaces that resolved. *)
Lemma range_hcsStats_value (hcsStats : list hcsshim.NetworkStats)
    (acc : list statsapi.InterfaceStats) (seen : gset string) w :
  (value (range_hcsStats shim hcsStats (Some acc) seen w)).1 =
    Some (acc ++ first_wins seen (resolved (value (resolutions shim hcsStats w)))).
Proof.
  revert acc seen w. induction hcsStats as [|stat rest IH]; intros acc seen w.
  - cbn. by rewrite app_nil_r.
  - cbn [range_hcsStats resolutions]. run.
    destruct (value (hcsStatsToInterfaceStats shim stat w)) as [iStat|err];
      cbn [resolved omap list_omap first_wins].
    + destruct (decide (statsapi.Name iStat ∈ seen)); [apply IH|].
      unfold append. cbn [elems]. rewrite IH, <- app_assoc. reflexivity.
    + run. apply IH.
Qed.

Lemma hcsStatsToNetworkStats_value timestamp (hcsStats : slice hcsshim.NetworkStats) w :
  let out := first_wins ∅ (resolved (value (resolutions shim (elems hcsStats) w))) in
  value (hcsStatsToNetworkStats shim timestamp hcsStats w) =
    Some {| statsapi.Time := metav1.NewTime timestamp;
            statsapi.InterfaceStats_ := List.hd statsapi.zero_InterfaceStats out;
            statsapi.Interfaces := Some out |}.
Proof.
  intros out. unfold hcsStatsToNetworkStats. run.
  cbn [statsapi.Interfaces statsapi.Time statsapi.InterfaceStats_].
  unfold make_slice. rewrite range_hcsStats_value. cbn [app elems].
  fold out. destruct out; reflexivity.
Qed.
End Aggregate.

Section AggregateClaims.
Context {World : Type}.
Variable shim : hcsShimInterface World.
Implicit Types (w : World) (stat : hcsshim.NetworkStats).

Lemma resolutions_cons stat (rest : list hcsshim.NetworkStats) w :
  value (resolutions shim (stat :: rest) w) =
    match (GetHNSEndpointByID shim (hcsshim.EndpointId stat) w).1 with
    | inl endpoint => inl (interface_of endpoint stat)
    | inr err => inr err
    end
    :: value (resolutions shim rest
                (GetHNSEndpointByID shim (hcsshim.EndpointId stat) w).2).
Proof. cbn [resolutions]. run. rewrite resolve_run. reflexivity. Qed.

(** A counter whose endpoint does not resolve leaves the interfaces and
    the set of adapters as they are, and the loop goes on. *)
Lemma range_hcsStats_skips_failure stat (rest : list hcsshim.NetworkStats)
    (interfaces : slice statsapi.InterfaceStats) (seen : gset string) w err w1 :
  GetHNSEndpointByID shim (hcsshim.EndpointId stat) w = (inr err, w1) ->
  value (range_hcsStats shim (stat :: rest) interfaces seen w) =
    value (range_hcsStats shim rest interfaces seen w1).
Proof.
  intros Hfail. cbn [range_hcsStats]. run. rewrite resolve_run, Hfail.
  cbn [value world fst snd]. run. reflexivity.
Qed.

Lemma resolutions_answered (hcsStats : list hcsshim.NetworkStats) w :
  resolved (value (resolutions shim hcsStats w)) =
    answered (endpoint_answers shim hcsStats w).
Proof.
  revert w. induction hcsStats as [|stat rest IH]; intros w; [reflexivity|].
  rewrite resolutions_cons. cbn [endpoint_answers]. unfold resolved, answered.
  cbn [omap list_omap fst snd].
  destruct (GetHNSEndpointByID shim (hcsshim.EndpointId stat) w).1 as [endpoint|err].
  - f_equal. apply IH.
  - apply IH.
Qed.

Lemma find_answered (name : string)
    (answers : list (hcsshim.NetworkStats * (hcsshim.HNSEndpoint + error))) :
  List.find (has_name name) (answered answers) =
    match List.find (resolves_to name) answers with
    | Some (stat, inl endpoint) => Some (interface_of endpoint stat)
    | _ => None
    end.
Proof.
  induction answers as [|[stat [endpoint|err]] answers IH]; [reflexivity| |].
  - unfold answered. cbn [omap list_omap List.find fst snd].
    unfold has_name at 1, resolves_to at 1. cbn [statsapi.Name fst snd].
    destruct (bool_decide (hcsshim.Name endpoint = name)); [reflexivity|].
    exact IH.
  - exact IH.
Qed.

(** C3: the names of the interfaces of a result are pairwise different;
    the interfaces are taken, in order, from the counters whose endpoint
    the host knew; and for every name the entries of that name in the
    result are exactly one, built from the first counter whose endpoint
    the host answered with that name: that name with the [BytesReceived]
    and [BytesSent] of that counter; there is none when no lookup was
    answered with that name. *)
Theorem hcsStatsToNetworkStats_first_adapter_wins
    timestamp (hcsStats : slice hcsshim.NetworkStats) w :
  exists result,
    value (hcsStatsToNetworkStats shim timestamp hcsStats w) = Some result /\
    let out := elems (statsapi.Interfaces result) in
    let answers := endpoint_answers shim (elems hcsStats) w in
    NoDup (statsapi.Name <$> out) /\
    sublist out (answered answers) /\
    forall name : string,
      List.filter (has_name name) out =
        match List.find (resolves_to name) answers with
        | Some (stat, inl endpoint) =>
            [{| statsapi.Name := hcsshim.Name endpoint;
                statsapi.RxBytes := Some (hcsshim.BytesReceived stat);
                statsapi.RxErrors := None;
                statsapi.TxBytes := Some (hcsshim.BytesSent stat);
                statsapi.TxErrors := None |}]
        | _ => []
        end.
Proof.
  eexists. split; [apply hcsStatsToNetworkStats_value|].
  cbn [statsapi.Interfaces elems]. rewrite resolutions_answered.
  split; [apply first_wins_NoDup|]. split; [apply first_wins_sublist|].
  intros name. rewrite first_wins_filter, find_answered.
  rewrite decide_False by apply not_elem_of_empty.
  destruct (List.find (resolves_to name) _) as [[stat [endpoint|err]]|];
    reflexivity.
Qed.

(** C4: the embedded default interface of a result is the first element
    of its interface sequence whenever there is one, and the zero value
    otherwise; it is a field of its own, so assigning another interface
    sequence to the result leaves it as it is; on a nil or empty counter
    sequence the result has an empty interface sequence and the zero value
    as default interface. *)
Theorem hcsStatsToNetworkStats_default_is_first
    timestamp (hcsStats : slice hcsshim.NetworkStats) w :
  (exists result,
     value (hcsStatsToNetworkStats shim timestamp hcsStats w) = Some result /\
     match elems (statsapi.Interfaces result) with
     | first :: _ => statsapi.InterfaceStats_ result = first
     | [] => statsapi.InterfaceStats_ result = statsapi.zero_InterfaceStats
     end /\
     forall interfaces : slice statsapi.InterfaceStats,
       statsapi.InterfaceStats_ (statsapi.set_Interfaces interfaces result) =
         statsapi.InterfaceStats_ result)
  /\ value (hcsStatsToNetworkStats shim timestamp None w) =
       Some (empty_result timestamp)
  /\ value (hcsStatsToNetworkStats shim timestamp (Some []) w) =
       Some (empty_result timestamp).
Proof.
  split; [|split; reflexivity].
  eexists. split; [apply hcsStatsToNetworkStats_value|].
  cbn [statsapi.Interfaces statsapi.InterfaceStats_ elems].
  split; [|reflexivity]. destruct (first_wins _ _); reflexivity.
Qed.

(** C10: the result is never a nil pointer, its interface sequence is an
    initialised slice, and a result without interfaces is
    [empty_result]: its default interface is the zero value of
    [InterfaceStats], there is no separate mark of absence. *)
Theorem hcsStatsToNetworkStats_result_initialised
    timestamp (hcsStats : slice hcsshim.NetworkStats) w :
  exists result interfaces,
    value (hcsStatsToNetworkStats shim timestamp hcsStats w) = Some result
    /\ statsapi.Interfaces result = Some interfaces
    /\ match interfaces with
       | [] =>
           result = empty_result timestamp
           /\ statsapi.InterfaceStats_ result =
                {| statsapi.Name := ""; statsapi.RxBytes := None;
                   statsapi.RxErrors := None; statsapi.TxBytes := None;
                   statsapi.TxErrors := None |}
       | first :: _ => statsapi.InterfaceStats_ result = first
       end.
Proof.
  eexists. eexists. split; [apply hcsStatsToNetworkStats_value|].
  cbn [statsapi.Interfaces statsapi.InterfaceStats_].
  split; [reflexivity|]. destruct (first_wins _ _); [split|]; reflexivity.
Qed.

(** C5, as amended: [hcsStatsToNetworkStats] returns a result for every
    counter sequence and every behaviour of the host; a counter whose
    endpoint does not resolve is skipped and the loop goes on with the
    interfaces collected so far; and for three counters of which the
    second does not resolve and the first and third resolve to two
    different adapter names, the interfaces of the result are those of the
    first and the third counter, in this order. *)
Theorem hcsStatsToNetworkStats_isolates_endpoint_failure :
  (forall timestamp (hcsStats : slice hcsshim.NetworkStats) w,
     exists result interfaces,
       value (hcsStatsToNetworkStats shim timestamp hcsStats w) = Some result
       /\ statsapi.Interfaces result = Some interfaces)
  /\ (forall stat (rest : list hcsshim.NetworkStats)
        (interfaces : slice statsapi.InterfaceStats) (seen : gset string)
        w err w1,
        GetHNSEndpointByID shim (hcsshim.EndpointId stat) w = (inr err, w1) ->
        value (range_hcsStats shim (stat :: rest) interfaces seen w) =
          value (range_hcsStats shim rest interfaces seen w1))
  /\ (forall timestamp stat1 stat2 stat3 w endpoint1 w1 err w2 endpoint3 w3,
        GetHNSEndpointByID shim (hcsshim.EndpointId stat1) w = (inl endpoint1, w1) ->
        GetHNSEndpointByID shim (hcsshim.EndpointId stat2) w1 = (inr err, w2) ->
        GetHNSEndpointByID shim (hcsshim.EndpointId stat3) w2 = (inl endpoint3, w3) ->
        hcsshim.Name endpoint1 <> hcsshim.Name endpoint3 ->
        value (hcsStatsToNetworkStats shim timestamp
                 (Some [stat1; stat2; stat3]) w) =
          Some {| statsapi.Time := metav1.NewTime timestamp;
                  statsapi.InterfaceStats_ := interface_of endpoint1 stat1;
                  statsapi.Interfaces :=
                    Some [interface_of endpoint1 stat1;
                          interface_of endpoint3 stat3] |}).
Proof.
  split; [|split].
  - intros timestamp hcsStats w. eexists. eexists.
    split; [apply hcsStatsToNetworkStats_value|]. reflexivity.
  - apply range_hcsStats_skips_failure.
  - intros timestamp stat1 stat2 stat3 w endpoint1 w1 err w2 endpoint3 w3
      H1 H2 H3 Hne.
    rewrite hcsStatsToNetworkStats_value. cbn [elems].
    rewrite !resolutions_cons, H1. cbn [fst snd]. rewrite H2. cbn [fst snd].
    rewrite H3. cbn [fst snd resolutions ret value resolved omap list_omap first_wins].
    rewrite decide_False by apply not_elem_of_empty.
    rewrite decide_False; [reflexivity|].
    cbn [interface_of statsapi.Name].
    intros [Heq%elem_of_singleton|Hin%not_elem_of_empty]%elem_of_union;
      [congruence|done].
Qed.
End AggregateClaims.

(** ** listContainerNetworkStats *)

Section Collect.
Context {World : Type}.
Variable shim : hcsShimInterface World.
Implicit Types (w : World) (c : hcsshim.ContainerProperties).
Implicit Types stats : gmap string (ptr statsapi.NetworkStats).

(** One turn of the loop over the containers. *)
Lemma range_containers_cons c (rest : list hcsshim.ContainerProperties) stats w :
  let r := fetchContainerStats shim c w in
  let a := hcsStatsToNetworkStats shim (hcsshim.Timestamp (value r).1)
             (hcsshim.Network (value r).1) (world r) in
  value (range_containers shim (c :: rest) stats w) =
    if gets_entry (value r)
    then value (range_containers shim rest (<[hcsshim.ID c := value a]> stats)
                  (world a))
    else value (range_containers shim rest stats (world r)).
Proof.
  intros r a. cbn [range_containers]. run. fold r. unfold gets_entry.
  destruct (value r).2 as [err|] eqn:Herr.
  - rewrite bool_decide_eq_false_2 by (intros [? _]; congruence).
    run. reflexivity.
  - destruct (decide (0 < len (hcsshim.Network (value r).1))) as [Hlen|Hlen].
    + rewrite bool_decide_eq_true_2 by done. run. reflexivity.
    + rewrite bool_decide_eq_false_2 by (intros [_ ?]; done). reflexivity.
Qed.

Lemma range_containers_skips_failure c (rest : list hcsshim.ContainerProperties)
    stats w err :
  (value (fetchContainerStats shim c w)).2 = Some err ->
  value (range_containers shim (c :: rest) stats w) =
    value (range_containers shim rest stats (world (fetchContainerStats shim c w))).
Proof.
  intros Herr. rewrite range_containers_cons. unfold gets_entry.
  rewrite bool_decide_eq_false_2; [reflexivity|]. intros [? _]. congruence.
Qed.

(** Which identifiers have an entry after the loop. *)
Lemma range_containers_entries (containers : list hcsshim.ContainerProperties)
    stats w (id : string) :
  is_Some (value (range_containers shim containers stats w) !! id) <->
  is_Some (stats !! id) \/
  exists c res, (c, res) ∈ fetches shim containers w
                /\ hcsshim.ID c = id /\ gets_entry res = true.
Proof.
  revert stats w. induction containers as [|c rest IH]; intros stats w.
  - cbn. split; [auto|]. intros [H|(c & res & Hin & _)]; [exact H|].
    inversion Hin.
  - rewrite range_containers_cons. cbn [fetches].
    set (r := fetchContainerStats shim c w).
    destruct (gets_entry (value r)) eqn:Hentry; rewrite IH; clear IH.
    + rewrite lookup_insert. split.
      * intros [H|(c' & res & Hin & Hid & Hres)].
        -- case_decide as Hc; [|by left].
           right. exists c, (value r). split; [left|done].
        -- right. exists c', res. split; [right; exact Hin|done].
      * intros [H|(c' & res & Hin & Hid & Hres)].
        -- left. case_decide; [eauto|exact H].
        -- apply elem_of_cons in Hin as [Heq|Hin].
           ++ inversion Heq; subst c' res. left.
              rewrite decide_True by exact Hid. eauto.
           ++ right. exists c', res. done.
    + split.
      * intros [H|(c' & res & Hin & Hid & Hres)]; [by left|].
        right. exists c', res. split; [right; exact Hin|done].
      * intros [H|(c' & res & Hin & Hid & Hres)]; [by left|].
        apply elem_of_cons in Hin as [Heq|Hin].
        -- inversion Heq; subst c' res. congruence.
        -- right. exists c', res. done.
Qed.

(** Every pointer the loop stores is non-nil. *)
Lemma range_containers_non_nil (containers : list hcsshim.ContainerProperties)
    stats w :
  (forall id p, stats !! id = Some p -> is_Some p) ->
  forall id p, value (range_containers shim containers stats w) !! id = Some p ->
               is_Some p.
Proof.
  revert stats w. induction containers as [|c rest IH]; intros stats w Hstats.
  - exact Hstats.
  - rewrite range_containers_cons.
    destruct (gets_entry _); apply IH; [|exact Hstats].
    intros id p. rewrite lookup_insert. case_decide; [|apply Hstats].
    intros [= <-]. rewrite hcsStatsToNetworkStats_value. eauto.
Qed.

Lemma resolved_all_failed (rs : list (statsapi.InterfaceStats + error)) :
  Forall (fun r => exists err, r = inr err) rs -> resolved rs = [].
Proof.
  induction 1 as [|r rs [err ->] _ IH]; [reflexivity|]. exact IH.
Qed.
End Collect.

Section CollectClaims.
Context {World : Type}.
Variable windowshim : hcsShimInterface World.
Implicit Types (w : World) (c : hcsshim.ContainerProperties).
Implicit Types (p : criStatsProvider World).
Implicit Types stats : gmap string (ptr statsapi.NetworkStats).

Lemma listContainerNetworkStats_run p w :
  let shim := newHcsShim windowshim p in
  let en := GetContainers shim container_query w in
  listContainerNetworkStats windowshim p w =
    match en.1.2 with
    | Some err => ((None, Some err), en.2, [EvGetContainers container_query])
    | None =>
        let r := range_containers shim (elems en.1.1) ∅ en.2 in
        ((Some (value r), None), world r,
         EvGetContainers container_query :: trace r ++ [])
    end.
Proof.
  intros shim en. unfold listContainerNetworkStats, bind, call. fold shim.
  fold en. destruct en as [[containers [err|]] w1]; cbn [fst snd]; [reflexivity|].
  destruct (range_containers shim (elems containers) ∅ w1) as [[m w2] t].
  reflexivity.
Qed.

(** C7: the error [listContainerNetworkStats] returns is the error of the
    enumeration, whatever happens afterwards.  When the enumeration
    fails, the map returned is nil and no further call is made; when it
    succeeds, the map returned is the one the loop over the containers
    has filled and the error is nil. *)
Theorem listContainerNetworkStats_fails_only_on_enumeration p w :
  let shim := newHcsShim windowshim p in
  let en := GetContainers shim container_query w in
  let r := listContainerNetworkStats windowshim p w in
  (value r).2 = en.1.2
  /\ match en.1.2 with
     | Some err =>
         value r = (None, Some err)
         /\ trace r = [EvGetContainers container_query]
         /\ world r = en.2
     | None =>
         value r =
           (Some (value (range_containers shim (elems en.1.1) ∅ en.2)), None)
     end.
Proof.
  intros shim en r. unfold r. rewrite listContainerNetworkStats_run.
  fold shim. fold en. destruct en.1.2 as [err|]; cbn; auto.
Qed.

(** C6, as amended: a container whose fetch returns an error, whether
    the handle cannot be opened or the query or the release fails, is
    skipped and the loop goes on with the map as it is, and
    [listContainerNetworkStats] returns no error whenever the enumeration
    succeeded; for three containers of which the second cannot be opened
    while the first and the third are fetched without error and have at
    least one network counter each, the map returned holds the results of
    the first and the third and nothing else, and has no entry for the
    second when its identifier differs from theirs. *)
Theorem listContainerNetworkStats_isolates_container_failure :
  (forall (shim : hcsShimInterface World) c
      (rest : list hcsshim.ContainerProperties) stats w err,
      (value (fetchContainerStats shim c w)).2 = Some err ->
      value (range_containers shim (c :: rest) stats w) =
        value (range_containers shim rest stats
                 (world (fetchContainerStats shim c w))))
  /\ (forall (shim : hcsShimInterface World) c
        (rest : list hcsshim.ContainerProperties) stats w err w1,
        OpenContainer shim (hcsshim.ID c) w = (inr err, w1) ->
        value (range_containers shim (c :: rest) stats w) =
          value (range_containers shim rest stats w1))
  /\ (forall p w,
        (GetContainers (newHcsShim windowshim p) container_query w).1.2 = None ->
        (value (listContainerNetworkStats windowshim p w)).2 = None)
  /\ (forall p w c1 c2 c3 wa cstats1 wb t1 err wd cstats3 we t3,
        let shim := newHcsShim windowshim p in
        GetContainers shim container_query w = ((Some [c1; c2; c3], None), wa) ->
        fetchContainerStats shim c1 wa = ((cstats1, None), wb, t1) ->
        0 < len (hcsshim.Network cstats1) ->
        let a1 := hcsStatsToNetworkStats shim (hcsshim.Timestamp cstats1)
                    (hcsshim.Network cstats1) wb in
        OpenContainer shim (hcsshim.ID c2) (world a1) = (inr err, wd) ->
        fetchContainerStats shim c3 wd = ((cstats3, None), we, t3) ->
        0 < len (hcsshim.Network cstats3) ->
        let a3 := hcsStatsToNetworkStats shim (hcsshim.Timestamp cstats3)
                    (hcsshim.Network cstats3) we in
        exists stats,
          value (listContainerNetworkStats windowshim p w) = (Some stats, None)
          /\ stats = <[hcsshim.ID c3 := value a3]> (<[hcsshim.ID c1 := value a1]> ∅)
          /\ dom stats = {[hcsshim.ID c1; hcsshim.ID c3]}
          /\ is_Some (value a1) /\ is_Some (value a3)
          /\ stats !! hcsshim.ID c3 = Some (value a3)
          /\ (hcsshim.ID c1 <> hcsshim.ID c3 ->
               stats !! hcsshim.ID c1 = Some (value a1))
          /\ (hcsshim.ID c2 <> hcsshim.ID c1 -> hcsshim.ID c2 <> hcsshim.ID c3 ->
               stats !! hcsshim.ID c2 = None)).
Proof.
  split; [|split; [|split]].
  - intros shim c rest stats w err Herr.
    apply (range_containers_skips_failure shim c rest stats w err Herr).
  - intros shim c rest stats w err w1 Hopen.
    rewrite (range_containers_skips_failure shim c rest stats w err);
      rewrite (fetch_open_failed shim c w err w1 Hopen); reflexivity.
  - intros p w Henum. rewrite listContainerNetworkStats_run.
    cbv zeta. rewrite Henum. reflexivity.
  - intros p w c1 c2 c3 wa cstats1 wb t1 err wd cstats3 we t3 shim
      Henum Hfetch1 Hlen1 a1 Hopen2 Hfetch3 Hlen3 a3.
    eexists. split; [|split; [reflexivity|]].
    + rewrite listContainerNetworkStats_run. cbv zeta. fold shim.
      rewrite Henum. cbn [fst snd value elems]. f_equal. f_equal.
      rewrite range_containers_cons. cbv zeta. rewrite Hfetch1.
      cbn [value world fst snd]. unfold gets_entry at 1. cbn [fst snd].
      rewrite bool_decide_eq_true_2 by done. fold a1.
      rewrite (range_containers_skips_failure shim c2 _ _ _ err);
        rewrite (fetch_open_failed shim c2 _ err wd Hopen2); [|reflexivity].
      cbn [world fst snd]. rewrite range_containers_cons. cbv zeta.
      rewrite Hfetch3. cbn [value world fst snd]. unfold gets_entry.
      cbn [fst snd]. rewrite bool_decide_eq_true_2 by done. reflexivity.
    + split.
      * rewrite !dom_insert_L, dom_empty_L.
        apply set_eq. intros x.
        rewrite !elem_of_union, !elem_of_singleton, elem_of_empty. tauto.
      * split; [unfold a1; rewrite hcsStatsToNetworkStats_value; eauto|].
        split; [unfold a3; rewrite hcsStatsToNetworkStats_value; eauto|].
        split; [apply lookup_insert_eq|]. split.
        -- intros Hne. rewrite lookup_insert_ne by congruence.
           apply lookup_insert_eq.
        -- intros Hne1 Hne3. rewrite !lookup_insert_ne by congruence.
           apply lookup_empty.
Qed.
End CollectClaims.

Section EntryClaims.
Context {World : Type}.
Variable windowshim : hcsShimInterface World.
Implicit Types (w : World) (c : hcsshim.ContainerProperties).
Implicit Types (p : criStatsProvider World).
Implicit Types stats : gmap string (ptr statsapi.NetworkStats).

(** C8: after a pass, an identifier has an entry in the map exactly when
    some container of that identifier was fetched without error and its
    statistics had at least one network counter, and every entry is a
    non-nil pointer; a container fetched without error but with no
    counter leaves the map as it is; and a container with counters of
    which no endpoint resolves still gets an entry, the result without
    interfaces. *)
Theorem listContainerNetworkStats_entry_iff_counters :
  (forall p w (containers : slice hcsshim.ContainerProperties) w1,
     let shim := newHcsShim windowshim p in
     GetContainers shim container_query w = ((containers, None), w1) ->
     exists stats,
       value (listContainerNetworkStats windowshim p w) = (Some stats, None)
       /\ (forall id : string,
             is_Some (stats !! id) <->
             exists c res,
               (c, res) ∈ fetches shim (elems containers) w1
               /\ hcsshim.ID c = id
               /\ res.2 = None /\ 0 < len (hcsshim.Network res.1))
       /\ (forall (id : string) (entry : ptr statsapi.NetworkStats),
             stats !! id = Some entry -> is_Some entry))
  /\ (forall (shim : hcsShimInterface World) c
        (rest : list hcsshim.ContainerProperties) stats w,
        let r := fetchContainerStats shim c w in
        (value r).2 = None ->
        len (hcsshim.Network (value r).1) = 0 ->
        value (range_containers shim (c :: rest) stats w) =
          value (range_containers shim rest stats (world r)))
  /\ (forall (shim : hcsShimInterface World) c
        (rest : list hcsshim.ContainerProperties) stats w,
        let r := fetchContainerStats shim c w in
        let a := hcsStatsToNetworkStats shim (hcsshim.Timestamp (value r).1)
                   (hcsshim.Network (value r).1) (world r) in
        (value r).2 = None ->
        0 < len (hcsshim.Network (value r).1) ->
        Forall (fun x => exists err, x = inr err)
          (value (resolutions shim (elems (hcsshim.Network (value r).1)) (world r))) ->
        value a = Some (empty_result (hcsshim.Timestamp (value r).1))
        /\ value (range_containers shim (c :: rest) stats w) =
             value (range_containers shim rest
                      (<[hcsshim.ID c :=
                           Some (empty_result (hcsshim.Timestamp (value r).1))]> stats)
                      (world a))).
Proof.
  split; [|split].
  - intros p w containers w1 shim Henum. eexists. split; [|split].
    + rewrite listContainerNetworkStats_run. cbv zeta. fold shim.
      rewrite Henum. reflexivity.
    + intros id. rewrite range_containers_entries, lookup_empty. split.
      * intros [[? [=]]|(c & res & Hin & Hid & Hres)].
        exists c, res. apply bool_decide_eq_true_1 in Hres. tauto.
      * intros (c & res & Hin & Hid & Herr & Hlen). right. exists c, res.
        split; [exact Hin|]. split; [exact Hid|].
        apply bool_decide_eq_true_2. done.
    + apply range_containers_non_nil. intros id entry. rewrite lookup_empty.
      intros [=].
  - intros shim c rest stats w r Herr Hlen. rewrite range_containers_cons.
    cbv zeta. fold r. unfold gets_entry.
    rewrite bool_decide_eq_false_2; [reflexivity|]. intros [_ ?]. lia.
  - intros shim c rest stats w r a Herr Hlen Hfail.
    assert (Ha : value a = Some (empty_result (hcsshim.Timestamp (value r).1))).
    { unfold a. rewrite hcsStatsToNetworkStats_value. cbv zeta.
      rewrite (resolved_all_failed _ Hfail). reflexivity. }
    split; [exact Ha|]. rewrite range_containers_cons. cbv zeta. fold r.
    unfold gets_entry. rewrite bool_decide_eq_true_2 by done. fold a.
    rewrite Ha. reflexivity.
Qed.

(** C9: when the statistics query succeeds and [Close] fails,
    [fetchContainerStats] returns the statistics together with the close
    error as its error, and the loop of [listContainerNetworkStats] goes
    on without storing anything for this container. *)
Theorem fetchContainerStats_close_error_is_fetch_error
    (shim : hcsShimInterface World) c w container w1 cstats w2 closeErr w3 :
  OpenContainer shim (hcsshim.ID c) w = (inl container, w1) ->
  Statistics container w1 = ((cstats, None), w2) ->
  Close container w2 = (Some closeErr, w3) ->
  fetchContainerStats shim c w =
    ((cstats, Some closeErr), w3,
     [EvOpenContainer (hcsshim.ID c); EvStatistics (handle container);
      EvClose (handle container)])
  /\ (forall (rest : list hcsshim.ContainerProperties) stats,
        value (range_containers shim (c :: rest) stats w) =
          value (range_containers shim rest stats w3))
  /\ (forall stats, value (range_containers shim [c] stats w) = stats).
Proof.
  intros Hopen Hstats Hclose.
  assert (Hrun : fetchContainerStats shim c w =
    ((cstats, Some closeErr), w3,
     [EvOpenContainer (hcsshim.ID c); EvStatistics (handle container);
      EvClose (handle container)])).
  { rewrite (fetch_opened shim c w container w1 Hopen), Hstats, Hclose.
    reflexivity. }
  split; [exact Hrun|].
  assert (Hskip : forall (rest : list hcsshim.ContainerProperties) stats,
    value (range_containers shim (c :: rest) stats w) =
      value (range_containers shim rest stats w3)).
  { intros rest stats.
    rewrite (range_containers_skips_failure shim c rest stats w closeErr);
      rewrite Hrun; reflexivity. }
  split; [exact Hskip|]. intros stats. rewrite Hskip. reflexivity.
Qed.
End EntryClaims.

(** ** The claims on the test double *)

Example fake_pass :
  value (listContainerNetworkStats fake fake_provider []) =
    (Some (<["G" := result_of []]>
             (<["C" := result_of [iface "eth1" 7 8]]>
                (<["A" := result_of [iface "eth0" 100 50]]> ∅))), None).
Proof. vm_compute. reflexivity. Qed.

Example fake_pass_releases_every_handle :
  world (listContainerNetworkStats fake fake_provider []) = []
  /\ closes (trace (listContainerNetworkStats fake fake_provider [])) = 6.
Proof. split; vm_compute; reflexivity. Qed.

Example fake_duplicate_adapter :
  value (hcsStatsToNetworkStats fake t0
           (Some [counter "ep1" 1 2; counter "ep3" 5 6; counter "ep4" 7 8]) []) =
    result_of [iface "eth0" 1 2; iface "eth1" 5 6].
Proof. vm_compute. reflexivity. Qed.

Lemma fetchContainerStats_names_both_errors_witness :
  OpenContainer fake "D" [] = (inl (fake_Container fake_D), [4%N])
  /\ Statistics (fake_Container fake_D) [4%N] =
       ((hcsshim.zero_Statistics, Some (errorString "stats failed")), [4%N])
  /\ Close (fake_Container fake_D) [4%N] =
       (Some (errorString "close failed"), [])
  /\ exists err,
       value (fetchContainerStats fake (props "D") []) =
         (hcsshim.zero_Statistics, Some err)
       /\ Error err =
            "failed to close container after error stats failed; close error: close failed"
       /\ names_cause (Error err) "stats failed"
       /\ names_cause (Error err) "close failed".
Proof.
  split; [reflexivity|]. split; [reflexivity|]. split; [reflexivity|].
  apply (fetchContainerStats_names_both_errors fake (props "D") []
           (fake_Container fake_D) [4%N] hcsshim.zero_Statistics
           (errorString "stats failed") [4%N] (errorString "close failed") []);
    reflexivity.
Defined.

Lemma fetchContainerStats_close_error_is_fetch_error_witness :
  OpenContainer fake "E" [] = (inl (fake_Container fake_E), [5%N])
  /\ Statistics (fake_Container fake_E) [5%N] = ((stats_E, None), [5%N])
  /\ Close (fake_Container fake_E) [5%N] =
       (Some (errorString "close failed"), [])
  /\ fetchContainerStats fake (props "E") [] =
       ((stats_E, Some (errorString "close failed")), [],
        [EvOpenContainer "E"; EvStatistics 5; EvClose 5])
  /\ value (range_containers fake [props "E"] ∅ []) = ∅.
Proof.
  split; [reflexivity|]. split; [reflexivity|]. split; [reflexivity|].
  pose proof (fetchContainerStats_close_error_is_fetch_error fake (props "E") []
                (fake_Container fake_E) [5%N] stats_E [5%N]
                (errorString "close failed") [] eq_refl eq_refl eq_refl)
    as (Hrun & _ & Hone).
  split; [exact Hrun|exact (Hone ∅)].
Defined.

Lemma hcsStatsToNetworkStats_isolates_endpoint_failure_witness :
  GetHNSEndpointByID fake "ep1" [] =
    (inl {| hcsshim.Id := "ep1"; hcsshim.Name := "eth0" |}, [])
  /\ GetHNSEndpointByID fake "ep2" [] = (inr (errorString "endpoint gone"), [])
  /\ GetHNSEndpointByID fake "ep3" [] =
       (inl {| hcsshim.Id := "ep3"; hcsshim.Name := "eth1" |}, [])
  /\ "eth0" <> "eth1"
  /\ value (hcsStatsToNetworkStats fake t0
              (Some [counter "ep1" 1 2; counter "ep2" 3 4; counter "ep3" 5 6]) []) =
       result_of [iface "eth0" 1 2; iface "eth1" 5 6].
Proof.
  split; [reflexivity|]. split; [reflexivity|]. split; [reflexivity|].
  split; [discriminate|].
  apply (proj2 (proj2 (hcsStatsToNetworkStats_isolates_endpoint_failure fake)) t0
           (counter "ep1" 1 2) (counter "ep2" 3 4) (counter "ep3" 5 6) []
           {| hcsshim.Id := "ep1"; hcsshim.Name := "eth0" |} []
           (errorString "endpoint gone") []
           {| hcsshim.Id := "ep3"; hcsshim.Name := "eth1" |} []);
    [reflexivity|reflexivity|reflexivity|discriminate].
Defined.

Lemma listContainerNetworkStats_isolates_container_failure_witness :
  GetContainers fake3 container_query [] =
    ((Some [props "A"; props "B"; props "C"], None), [])
  /\ OpenContainer fake3 "B" [] = (inr (errorString "open failed"), [])
  /\ (exists stats,
        value (listContainerNetworkStats fake3 fake3_provider []) = (Some stats, None)
        /\ stats = <["C" := result_of [iface "eth1" 7 8]]>
                     (<["A" := result_of [iface "eth0" 100 50]]> ∅)
        /\ dom stats = {["A"; "C"]}
        /\ stats !! "B" = None)
  /\ (value (fetchContainerStats fake (props "E") [])).2 =
       Some (errorString "close failed")
  /\ value (range_containers fake [props "E"; props "A"] ∅ []) =
       value (range_containers fake [props "A"] ∅ []).
Proof.
  split; [reflexivity|]. split; [reflexivity|].
  pose proof (listContainerNetworkStats_isolates_container_failure fake3)
    as (_ & _ & _ & Hthree).
  pose proof (listContainerNetworkStats_isolates_container_failure fake)
    as (Hskip & _).
  split; [|split; [reflexivity|]].
  - destruct (Hthree
                fake3_provider [] (props "A") (props "B") (props "C") []
                {| hcsshim.Timestamp := t0;
                   hcsshim.Network := Some [counter "ep1" 100 50] |} []
                [EvOpenContainer "A"; EvStatistics 1; EvClose 1]
                (errorString "open failed") []
                {| hcsshim.Timestamp := t0;
                   hcsshim.Network := Some [counter "ep3" 7 8] |} []
                [EvOpenContainer "C"; EvStatistics 3; EvClose 3]
                eq_refl eq_refl (le_n 1) eq_refl eq_refl (le_n 1))
      as (stats & Hvalue & Hstats & Hdom & _ & _ & _ & _ & Hsecond).
    exists stats. split; [exact Hvalue|]. split; [exact Hstats|].
    split; [exact Hdom|]. apply Hsecond; discriminate.
  - exact (Hskip fake (props "E") [props "A"] ∅ []
             (errorString "close failed") eq_refl).
Defined.

Lemma listContainerNetworkStats_entry_iff_counters_witness :
  (exists stats,
     value (listContainerNetworkStats fake fake_provider []) = (Some stats, None)
     /\ forall id : string,
          is_Some (stats !! id) <->
          exists c res,
            (c, res) ∈ fetches fake (List.map fc_props fake_containers) []
            /\ hcsshim.ID c = id
            /\ res.2 = None /\ 0 < len (hcsshim.Network res.1))
  /\ value (range_containers fake [props "F"] ∅ []) = ∅
  /\ value (range_containers fake [props "G"] ∅ []) =
       <["G" := Some (empty_result t0)]> ∅.
Proof.
  pose proof (listContainerNetworkStats_entry_iff_counters fake)
    as (Hiff & Hnone & Hempty).
  split; [|split].
  - destruct (Hiff fake_provider [] (Some (List.map fc_props fake_containers)) []
                eq_refl) as (stats & Hvalue & Hentries & _).
    exists stats. split; [exact Hvalue|exact Hentries].
  - exact (Hnone fake (props "F") [] ∅ [] eq_refl eq_refl).
  - refine (proj2 (Hempty fake (props "G") [] ∅ [] eq_refl (le_n 1) _)).
    repeat constructor. exists (errorString "endpoint gone"). reflexivity.
Defined.

(** C5 as stated does not hold: here the second of three counters does not
    resolve, the first and the third resolve (to the same adapter), and
    the result holds the interface of the first counter only; the
    interface of the third is dropped by the check "only count each
    adapter once". *)
Lemma hcsStatsToNetworkStats_drops_duplicate_after_failure :
  GetHNSEndpointByID fake "ep1" [] =
    (inl {| hcsshim.Id := "ep1"; hcsshim.Name := "eth0" |}, [])
  /\ GetHNSEndpointByID fake "ep2" [] = (inr (errorString "endpoint gone"), [])
  /\ GetHNSEndpointByID fake "ep4" [] =
       (inl {| hcsshim.Id := "ep4"; hcsshim.Name := "eth0" |}, [])
  /\ value (hcsStatsToNetworkStats fake t0
              (Some [counter "ep1" 1 2; counter "ep2" 3 4; counter "ep4" 7 8]) []) =
       result_of [iface "eth0" 1 2]
  /\ value (hcsStatsToNetworkStats fake t0
              (Some [counter "ep1" 1 2; counter "ep2" 3 4; counter "ep4" 7 8]) []) <>
       result_of [iface "eth0" 1 2; iface "eth0" 7 8].
Proof.
  split; [reflexivity|]. split; [reflexivity|]. split; [reflexivity|].
  split; [vm_compute; reflexivity|]. vm_compute. discriminate.
Qed.

(** C6 as stated does not hold: here the second of three containers cannot
    be opened, the first and the third are fetched without error, and the
    map has no entry for the first, which has no network counter. *)
Lemma listContainerNetworkStats_omits_first_without_counters :
  GetContainers fake3_idle container_query [] =
    ((Some [props "F"; props "B"; props "C"], None), [])
  /\ (value (fetchContainerStats fake3_idle (props "F") [])).2 = None
  /\ OpenContainer fake3_idle "B" [] = (inr (errorString "open failed"), [])
  /\ (value (fetchContainerStats fake3_idle (props "C") [])).2 = None
  /\ exists stats,
       value (listContainerNetworkStats fake3_idle fake3_idle_provider []) =
         (Some stats, None)
       /\ stats !! "F" = None
       /\ stats = <["C" := result_of [iface "eth1" 7 8]]> ∅.
Proof.
  split; [reflexivity|]. split; [reflexivity|]. split; [reflexivity|].
  split; [reflexivity|]. eexists. split; [vm_compute; reflexivity|].
  split; reflexivity.
Qed.

(** ** Further properties of fetchContainerStats *)

Section FetchOutcome.
Context {World : Type}.
Variable shim : hcsShimInterface World.
Implicit Types (w : World) (c : hcsshim.ContainerProperties).

Lemma names_cause_refl (s : string) : names_cause s s.
Proof. exists "", "". cbn. by rewrite append_nil_r. Qed.

(** X1: [fetchContainerStats] returns a nil error exactly when the
    container could be opened, [Statistics] returned no error and [Close]
    returned no error; the statistics returned are then those of
    [Statistics] and the host is left in the state [Close] left it in. *)
Theorem fetchContainerStats_succeeds_iff c w :
  ((value (fetchContainerStats shim c w)).2 = None <->
   exists container w1 cstats w2 w3,
     OpenContainer shim (hcsshim.ID c) w = (inl container, w1)
     /\ Statistics container w1 = ((cstats, None), w2)
     /\ Close container w2 = (None, w3))
  /\ (forall container w1 cstats w2 w3,
        OpenContainer shim (hcsshim.ID c) w = (inl container, w1) ->
        Statistics container w1 = ((cstats, None), w2) ->
        Close container w2 = (None, w3) ->
        value (fetchContainerStats shim c w) = (cstats, None)
        /\ world (fetchContainerStats shim c w) = w3).
Proof.
  split; [split|].
  - destruct (OpenContainer shim (hcsshim.ID c) w) as [[container|err] w1] eqn:Hopen.
    + rewrite (fetch_opened shim c w container w1 Hopen).
      destruct (Statistics container w1) as [[cstats [queryErr|]] w2] eqn:Hstats;
        destruct (Close container w2) as [[closeErr|] w3] eqn:Hclose;
        cbn; try discriminate.
      intros _. exists container, w1, cstats, w2, w3. done.
    + rewrite (fetch_open_failed shim c w err w1 Hopen). cbn. discriminate.
  - intros (container & w1 & cstats & w2 & w3 & Hopen & Hstats & Hclose).
    rewrite (fetch_opened shim c w container w1 Hopen), Hstats, Hclose.
    reflexivity.
  - intros container w1 cstats w2 w3 Hopen Hstats Hclose.
    rewrite (fetch_opened shim c w container w1 Hopen), Hstats, Hclose.
    split; reflexivity.
Qed.

(** X2: once the container is open, no failure is swallowed: the error
    returned by [fetchContainerStats] contains the text of the error of
    [Statistics] if there was one and the text of the error of [Close] if
    there was one, and the statistics returned are those [Statistics]
    returned, whatever [Close] answered. *)
Theorem fetchContainerStats_reports_every_failure
    c w container w1 res w2 closeErr w3 :
  OpenContainer shim (hcsshim.ID c) w = (inl container, w1) ->
  Statistics container w1 = (res, w2) ->
  Close container w2 = (closeErr, w3) ->
  (value (fetchContainerStats shim c w)).1 = res.1
  /\ (forall e, res.2 = Some e ->
        exists err, (value (fetchContainerStats shim c w)).2 = Some err
                    /\ names_cause (Error err) (Error e))
  /\ (forall e, closeErr = Some e ->
        exists err, (value (fetchContainerStats shim c w)).2 = Some err
                    /\ names_cause (Error err) (Error e)).
Proof.
  intros Hopen Hstats Hclose.
  rewrite (fetch_opened shim c w container w1 Hopen), Hstats, Hclose.
  destruct res as [cstats [queryErr|]], closeErr as [ce|]; cbn [value fst snd].
  - split; [reflexivity|]. split; intros e [= <-]; eexists; (split; [reflexivity|]).
    + exists "failed to close container after error ",
        ("; close error: " +:+ Error ce). reflexivity.
    + exists ("failed to close container after error " +:+ Error queryErr +:+
              "; close error: "), "".
      cbn [Errorf_close Error]. rewrite append_nil_r, !append_assoc. reflexivity.
  - split; [reflexivity|]. split; intros e [= <-].
    eexists. split; [reflexivity|apply names_cause_refl].
  - split; [reflexivity|]. split; intros e [= <-].
    eexists. split; [reflexivity|apply names_cause_refl].
  - split; [reflexivity|]. split; intros e [=].
Qed.
End FetchOutcome.

(** ** Further properties of hcsStatsToNetworkStats *)

Lemma first_wins_length (seen : gset string) (l : list statsapi.InterfaceStats) :
  length (first_wins seen l) <= length l.
Proof. apply sublist_length, first_wins_sublist. Qed.

Lemma first_wins_all_new (seen : gset string) (l : list statsapi.InterfaceStats) :
  NoDup (statsapi.Name <$> l) ->
  (forall i, i ∈ l -> statsapi.Name i ∉ seen) ->
  first_wins seen l = l.
Proof.
  revert seen. induction l as [|j l IH]; intros seen Hnodup Hnew; [reflexivity|].
  cbn. rewrite fmap_cons in Hnodup. apply NoDup_cons in Hnodup as [Hj Hnodup].
  rewrite decide_False by (apply Hnew; left). f_equal. apply IH; [exact Hnodup|].
  intros i Hi [Heq%elem_of_singleton|Hin]%elem_of_union.
  - apply Hj. rewrite <- Heq. apply list_elem_of_fmap. eauto.
  - apply (Hnew i); [by right|exact Hin].
Qed.

Lemma first_wins_head (l : list statsapi.InterfaceStats) :
  List.hd statsapi.zero_InterfaceStats (first_wins ∅ l) =
    List.hd statsapi.zero_InterfaceStats l.
Proof.
  destruct l as [|i l]; [reflexivity|]. cbn.
  rewrite decide_False by apply not_elem_of_empty. reflexivity.
Qed.

Lemma first_wins_app (seen : gset string) (l1 l2 : list statsapi.InterfaceStats) :
  exists seen', first_wins seen (l1 ++ l2) = first_wins seen l1 ++ first_wins seen' l2.
Proof.
  revert seen. induction l1 as [|i l1 IH]; intros seen; cbn.
  - exists seen. reflexivity.
  - destruct (decide (statsapi.Name i ∈ seen)); [apply IH|].
    destruct (IH ({[statsapi.Name i]} ∪ seen)) as [seen' ->]. eauto.
Qed.

Lemma lookup_events_no_container_call (hcsStats : list hcsshim.NetworkStats)
    (rs : list (statsapi.InterfaceStats + error)) :
  opened (lookup_events hcsStats rs) = []
  /\ queried (lookup_events hcsStats rs) = []
  /\ closed (lookup_events hcsStats rs) = []
  /\ enumerations (lookup_events hcsStats rs) = []
  /\ logged 4 (lookup_events hcsStats rs) = [].
Proof.
  revert rs. induction hcsStats as [|stat rest IH]; intros rs; [done|].
  destruct rs as [|r rs]; [done|]. destruct (IH rs) as (? & ? & ? & ? & ?).
  destruct r; cbn; done.
Qed.

Lemma lookup_events_logged (hcsStats : list hcsshim.NetworkStats)
    (rs : list (statsapi.InterfaceStats + error)) :
  logged 0 (lookup_events hcsStats rs) = failed_endpoints hcsStats rs.
Proof.
  revert rs. induction hcsStats as [|stat rest IH]; intros rs; [reflexivity|].
  destruct rs as [|[i|err] rs]; [reflexivity| |]; cbn; rewrite <- IH; reflexivity.
Qed.

Section AggregateMore.
Context {World : Type}.
Variable shim : hcsShimInterface World.
Implicit Types (w : World) (stat : hcsshim.NetworkStats).

Lemma resolutions_step stat (rest : list hcsshim.NetworkStats) w :
  value (resolutions shim (stat :: rest) w) =
    value (hcsStatsToInterfaceStats shim stat w)
    :: value (resolutions shim rest (world (hcsStatsToInterfaceStats shim stat w))).
Proof. cbn [resolutions]. run. reflexivity. Qed.

Lemma resolutions_world_step stat (rest : list hcsshim.NetworkStats) w :
  world (resolutions shim (stat :: rest) w) =
    world (resolutions shim rest (world (hcsStatsToInterfaceStats shim stat w))).
Proof. cbn [resolutions]. run. reflexivity. Qed.

Lemma resolutions_length (hcsStats : list hcsshim.NetworkStats) w :
  length (value (resolutions shim hcsStats w)) = length hcsStats.
Proof.
  revert w. induction hcsStats as [|stat rest IH]; intros w; [reflexivity|].
  rewrite resolutions_step. cbn. by rewrite IH.
Qed.

Lemma resolutions_app (l1 l2 : list hcsshim.NetworkStats) w :
  value (resolutions shim (l1 ++ l2) w) =
    value (resolutions shim l1 w)
    ++ value (resolutions shim l2 (world (resolutions shim l1 w))).
Proof.
  revert w. induction l1 as [|stat l1 IH]; intros w; [reflexivity|].
  rewrite <- app_comm_cons, !resolutions_step, resolutions_world_step, IH.
  reflexivity.
Qed.

Lemma resolved_length (hcsStats : list hcsshim.NetworkStats) w :
  length (resolved (value (resolutions shim hcsStats w))) <= length hcsStats.
Proof.
  rewrite <- (resolutions_length hcsStats w).
  unfold resolved.
  induction (value (resolutions shim hcsStats w)) as [|[i|err] rs IH];
    cbn [omap list_omap length]; lia.
Qed.

Lemma resolved_from_counter (hcsStats : list hcsshim.NetworkStats) w
    (i : statsapi.InterfaceStats) :
  i ∈ resolved (value (resolutions shim hcsStats w)) ->
  exists stat endpoint, stat ∈ hcsStats /\ i = interface_of endpoint stat.
Proof.
  revert w. induction hcsStats as [|stat rest IH]; intros w.
  - cbn. intros Hin. inversion Hin.
  - rewrite resolutions_step, resolve_run. cbn [value world fst snd].
    destruct (GetHNSEndpointByID shim (hcsshim.EndpointId stat) w).1
      as [endpoint|err]; cbn [resolved omap list_omap].
    + intros [->|Hin]%elem_of_cons.
      * exists stat, endpoint. split; [left|reflexivity].
      * destruct (IH _ Hin) as (stat' & ep & Hstat & ->).
        exists stat', ep. split; [by right|reflexivity].
    + intros Hin. destruct (IH _ Hin) as (stat' & ep & Hstat & ->).
      exists stat', ep. split; [by right|reflexivity].
Qed.

Lemma range_hcsStats_trace (hcsStats : list hcsshim.NetworkStats)
    (interfaces : slice statsapi.InterfaceStats) (seen : gset string) w :
  trace (range_hcsStats shim hcsStats interfaces seen w) =
    lookup_events hcsStats (value (resolutions shim hcsStats w)).
Proof.
  revert interfaces seen w.
  induction hcsStats as [|stat rest IH]; intros interfaces seen w; [reflexivity|].
  rewrite resolutions_step. cbn [range_hcsStats lookup_events]. run.
  rewrite resolve_run at 1. cbn [trace snd app]. f_equal.
  destruct (value (hcsStatsToInterfaceStats shim stat w)) as [iStat|err].
  - cbn [app]. destruct (decide (statsapi.Name iStat ∈ seen)); apply IH.
  - run. cbn [klog_InfoS trace snd app]. f_equal. apply IH.
Qed.

Lemma hcsStatsToNetworkStats_trace timestamp (hcsStats : slice hcsshim.NetworkStats) w :
  trace (hcsStatsToNetworkStats shim timestamp hcsStats w) =
    lookup_events (elems hcsStats) (value (resolutions shim (elems hcsStats) w)).
Proof.
  unfold hcsStatsToNetworkStats. run. rewrite range_hcsStats_trace.
  match goal with |- _ ++ trace ?r = _ => assert (Hret : trace r = []) end.
  { destruct (elems _); reflexivity. }
  rewrite Hret. apply app_nil_r.
Qed.
End AggregateMore.

Lemma lookup_events_lookups (hcsStats : list hcsshim.NetworkStats)
    (rs : list (statsapi.InterfaceStats + error)) :
  length rs = length hcsStats ->
  lookups (lookup_events hcsStats rs) = hcsshim.EndpointId <$> hcsStats.
Proof.
  revert rs. induction hcsStats as [|stat rest IH]; intros rs Hlen; [reflexivity|].
  destruct rs as [|r rs]; [discriminate|]. injection Hlen as Hlen.
  rewrite fmap_cons, <- (IH rs Hlen). destruct r; reflexivity.
Qed.

Lemma failed_endpoints_length (hcsStats : list hcsshim.NetworkStats)
    (rs : list (statsapi.InterfaceStats + error)) :
  length rs = length hcsStats ->
  length (failed_endpoints hcsStats rs) + length (resolved rs) = length hcsStats.
Proof.
  revert rs. induction hcsStats as [|stat rest IH]; intros rs Hlen.
  - destruct rs; [reflexivity|discriminate].
  - destruct rs as [|r rs]; [discriminate|]. injection Hlen as Hlen.
    specialize (IH rs Hlen). unfold resolved in *.
    destruct r; cbn [failed_endpoints omap list_omap length]; lia.
Qed.

Section AggregateExtras.
Context {World : Type}.
Variable shim : hcsShimInterface World.
Implicit Types (w : World) (stat : hcsshim.NetworkStats).

(** X3: [hcsStatsToNetworkStats] looks every counter up exactly once, in
    the order of the counters and also when an earlier counter had the
    same endpoint, and makes no other call to the host: it opens, queries
    and closes no container and does not enumerate. *)
Theorem hcsStatsToNetworkStats_one_lookup_per_counter
    timestamp (hcsStats : slice hcsshim.NetworkStats) w :
  let t := trace (hcsStatsToNetworkStats shim timestamp hcsStats w) in
  lookups t = hcsshim.EndpointId <$> elems hcsStats
  /\ opened t = [] /\ queried t = [] /\ closed t = [] /\ enumerations t = [].
Proof.
  cbv zeta. rewrite hcsStatsToNetworkStats_trace. split.
  - apply lookup_events_lookups, resolutions_length.
  - destruct (lookup_events_no_container_call (elems hcsStats)
                (value (resolutions shim (elems hcsStats) w)))
      as (? & ? & ? & ? & _). done.
Qed.

(** X4: [hcsStatsToNetworkStats] logs, at verbosity 0, one line for every
    counter whose endpoint did not resolve, in order, with the endpoint
    identifier and the error, and nothing else; every counter is either
    resolved or logged. *)
Theorem hcsStatsToNetworkStats_logs_each_failure
    timestamp (hcsStats : slice hcsshim.NetworkStats) w :
  let t := trace (hcsStatsToNetworkStats shim timestamp hcsStats w) in
  let rs := value (resolutions shim (elems hcsStats) w) in
  logged 0 t = failed_endpoints (elems hcsStats) rs
  /\ length (logged 0 t) + length (resolved rs) = len hcsStats.
Proof.
  cbv zeta. rewrite hcsStatsToNetworkStats_trace, lookup_events_logged.
  split; [reflexivity|]. apply failed_endpoints_length, resolutions_length.
Qed.

(** X5: the number of interfaces of a result plus the number of failures
    logged never exceeds the number of counters. *)
Theorem hcsStatsToNetworkStats_interfaces_bound
    timestamp (hcsStats : slice hcsshim.NetworkStats) w :
  exists result,
    value (hcsStatsToNetworkStats shim timestamp hcsStats w) = Some result
    /\ len (statsapi.Interfaces result)
       + length (logged 0 (trace (hcsStatsToNetworkStats shim timestamp hcsStats w)))
       <= len hcsStats.
Proof.
  eexists. split; [apply hcsStatsToNetworkStats_value|].
  rewrite hcsStatsToNetworkStats_trace, lookup_events_logged.
  cbn [statsapi.Interfaces]. unfold len at 1. cbn [elems].
  pose proof (first_wins_length ∅
                (resolved (value (resolutions shim (elems hcsStats) w)))) as Hle.
  pose proof (failed_endpoints_length (elems hcsStats) _
                (resolutions_length shim (elems hcsStats) w)) as Hsum.
  unfold len. lia.
Qed.

(** X6: when the counters that resolve resolve to pairwise different
    adapter names, nothing is dropped: the interfaces of the result are
    all the resolved interfaces, in the order of the counters. *)
Theorem hcsStatsToNetworkStats_keeps_distinct_adapters
    timestamp (hcsStats : slice hcsshim.NetworkStats) w :
  let rs := resolved (value (resolutions shim (elems hcsStats) w)) in
  NoDup (statsapi.Name <$> rs) ->
  exists result,
    value (hcsStatsToNetworkStats shim timestamp hcsStats w) = Some result
    /\ statsapi.Interfaces result = Some rs.
Proof.
  intros rs Hnodup. eexists. split; [apply hcsStatsToNetworkStats_value|].
  cbn [statsapi.Interfaces]. f_equal. apply first_wins_all_new; [exact Hnodup|].
  intros i _. apply not_elem_of_empty.
Qed.

(** X7: every interface of a result carries the byte counters of one of
    the input counters, unchanged, and no error counters. *)
Theorem hcsStatsToNetworkStats_copies_counters
    timestamp (hcsStats : slice hcsshim.NetworkStats) w :
  exists result,
    value (hcsStatsToNetworkStats shim timestamp hcsStats w) = Some result
    /\ Forall (fun i : statsapi.InterfaceStats =>
                 statsapi.RxErrors i = None /\ statsapi.TxErrors i = None
                 /\ exists stat,
                      stat ∈ elems hcsStats
                      /\ statsapi.RxBytes i = Some (hcsshim.BytesReceived stat)
                      /\ statsapi.TxBytes i = Some (hcsshim.BytesSent stat))
         (elems (statsapi.Interfaces result)).
Proof.
  eexists. split; [apply hcsStatsToNetworkStats_value|].
  cbn [statsapi.Interfaces elems]. apply Forall_forall. intros i Hin.
  apply (fun H => elem_of_sublist _ _ _ H (first_wins_sublist _ _)) in Hin.
  apply resolved_from_counter in Hin as (stat & endpoint & Hstat & ->).
  split; [reflexivity|]. split; [reflexivity|]. exists stat. done.
Qed.

(** X8: the default interface of a result is the interface of the first
    counter whose endpoint resolves, and the zero value when none does. *)
Theorem hcsStatsToNetworkStats_default_is_first_resolved
    timestamp (hcsStats : slice hcsshim.NetworkStats) w :
  exists result,
    value (hcsStatsToNetworkStats shim timestamp hcsStats w) = Some result
    /\ statsapi.InterfaceStats_ result =
         List.hd statsapi.zero_InterfaceStats
           (resolved (value (resolutions shim (elems hcsStats) w))).
Proof.
  eexists. split; [apply hcsStatsToNetworkStats_value|].
  cbn [statsapi.InterfaceStats_]. apply first_wins_head.
Qed.

(** X9: counters added at the end never change what was found before
    them: the interfaces for [l1] are a prefix of the interfaces for
    [l1 ++ l2], from the same host state. *)
Theorem hcsStatsToNetworkStats_prefix_stable
    timestamp (l1 l2 : list hcsshim.NetworkStats) w :
  exists result1 result12,
    value (hcsStatsToNetworkStats shim timestamp (Some l1) w) = Some result1
    /\ value (hcsStatsToNetworkStats shim timestamp (Some (l1 ++ l2)) w) =
         Some result12
    /\ elems (statsapi.Interfaces result1)
         `prefix_of` elems (statsapi.Interfaces result12).
Proof.
  eexists. eexists. split; [apply hcsStatsToNetworkStats_value|].
  split; [apply hcsStatsToNetworkStats_value|].
  cbn [statsapi.Interfaces elems]. rewrite resolutions_app.
  unfold resolved. rewrite omap_app.
  destruct (first_wins_app ∅
              (omap (fun r => match r with inl i => Some i | inr _ => None end)
                 (value (resolutions shim l1 w)))
              (omap (fun r => match r with inl i => Some i | inr _ => None end)
                 (value (resolutions shim l2 (world (resolutions shim l1 w))))))
    as [seen' ->].
  apply prefix_app_r. reflexivity.
Qed.
End AggregateExtras.

(** ** Further properties of listContainerNetworkStats *)

Section CollectMore.
Context {World : Type}.
Variable shim : hcsShimInterface World.
Implicit Types (w : World) (c : hcsshim.ContainerProperties).
Implicit Types stats : gmap string (ptr statsapi.NetworkStats).

Lemma fetch_calls c w :
  let t := trace (fetchContainerStats shim c w) in
  opened t = [hcsshim.ID c] /\ queried t = closed t
  /\ enumerations t = [] /\ logged 4 t = [].
Proof.
  cbv zeta.
  destruct (OpenContainer shim (hcsshim.ID c) w) as [[container|err] w1] eqn:Hopen.
  - rewrite (fetch_opened shim c w container w1 Hopen).
    destruct (Statistics container w1) as [res w2].
    destruct (Close container w2) as [closeErr w3]. done.
  - rewrite (fetch_open_failed shim c w err w1 Hopen). done.
Qed.

(** The events of one turn of the loop over the containers. *)
Lemma range_containers_trace_cons c (rest : list hcsshim.ContainerProperties)
    stats w :
  let r := fetchContainerStats shim c w in
  let a := hcsStatsToNetworkStats shim (hcsshim.Timestamp (value r).1)
             (hcsshim.Network (value r).1) (world r) in
  trace (range_containers shim (c :: rest) stats w) =
    trace r ++
    if gets_entry (value r)
    then trace a ++
         trace (range_containers shim rest (<[hcsshim.ID c := value a]> stats)
                  (world a))
    else match (value r).2 with
         | Some err =>
             [EvInfoS 4
                "Failed to fetch statistics for container, continue to get stats for other containers"
                [("containerID", LogString (hcsshim.ID c)); ("err", LogError err)]]
         | None => []
         end ++ trace (range_containers shim rest stats (world r)).
Proof.
  intros r a. cbn [range_containers]. run. fold r. f_equal. unfold gets_entry.
  destruct (value r).2 as [err|] eqn:Herr.
  - rewrite bool_decide_eq_false_2 by (intros [? _]; congruence).
    run. reflexivity.
  - destruct (decide (0 < len (hcsshim.Network (value r).1))) as [Hlen|Hlen].
    + rewrite bool_decide_eq_true_2 by done. run. reflexivity.
    + rewrite bool_decide_eq_false_2 by (intros [_ ?]; done). reflexivity.
Qed.

Lemma range_containers_calls (containers : list hcsshim.ContainerProperties)
    stats w :
  let t := trace (range_containers shim containers stats w) in
  opened t = hcsshim.ID <$> containers
  /\ queried t = closed t
  /\ enumerations t = []
  /\ logged 4 t = failed_containers (fetches shim containers w).
Proof.
  cbv zeta. revert stats w.
  induction containers as [|c rest IH]; intros stats w; [done|].
  rewrite range_containers_trace_cons. cbv zeta. cbn [fetches].
  destruct (fetch_calls c w) as (Ho & Hq & He & Hl). cbv zeta in Ho, Hq, He, Hl.
  set (r := fetchContainerStats shim c w) in *.
  unfold opened, queried, closed, enumerations, logged, failed_containers in *.
  rewrite !omap_app, Ho, Hq, He, Hl. cbn [omap list_omap fst snd].
  destruct (gets_entry (value r)) eqn:Hentry.
  - apply bool_decide_eq_true_1 in Hentry as [Herr _]. rewrite Herr.
    set (a := hcsStatsToNetworkStats shim _ _ _).
    assert (Ha : opened (trace a) = [] /\ queried (trace a) = []
                 /\ closed (trace a) = [] /\ enumerations (trace a) = []
                 /\ logged 4 (trace a) = []).
    { unfold a. rewrite hcsStatsToNetworkStats_trace.
      apply lookup_events_no_container_call. }
    destruct Ha as (Hao & Haq & Hac & Hae & Hal).
    unfold opened, queried, closed, enumerations, logged in Hao, Haq, Hac, Hae, Hal.
    rewrite !omap_app, Hao, Haq, Hac, Hae, Hal. cbn [app].
    destruct (IH (<[hcsshim.ID c := value a]> stats) (world a))
      as (-> & -> & -> & ->). done.
  - destruct (IH stats (world r)) as (IHo & IHq & IHe & IHl).
    destruct (value r).2 as [err|]; rewrite !omap_app, IHo, IHq, IHe, IHl; done.
Qed.

Lemma fetches_container (containers : list hcsshim.ContainerProperties) w c res :
  (c, res) ∈ fetches shim containers w -> c ∈ containers.
Proof.
  revert w. induction containers as [|c' rest IH]; intros w; cbn [fetches].
  - intros Hin. inversion Hin.
  - intros [[= -> _]|Hin]%elem_of_cons; [left|right; eapply IH, Hin].
Qed.

(** Where the entries of the map come from. *)
Lemma range_containers_entry_origin (containers : list hcsshim.ContainerProperties)
    stats w (id : string) (entry : ptr statsapi.NetworkStats) :
  value (range_containers shim containers stats w) !! id = Some entry ->
  stats !! id = Some entry
  \/ exists c res w',
       (c, res) ∈ fetches shim containers w
       /\ hcsshim.ID c = id /\ gets_entry res = true
       /\ entry = value (hcsStatsToNetworkStats shim (hcsshim.Timestamp res.1)
                           (hcsshim.Network res.1) w').
Proof.
  revert stats w. induction containers as [|c rest IH]; intros stats w.
  - cbn. auto.
  - rewrite range_containers_cons. cbn [fetches].
    set (r := fetchContainerStats shim c w).
    destruct (gets_entry (value r)) eqn:Hentry; intros Hlook;
      apply IH in Hlook as [Hlook|(c' & res & w' & Hin & Hid & Hres & ->)].
    + rewrite lookup_insert in Hlook. case_decide as Hc; [|by left].
      injection Hlook as <-. right. exists c, (value r), (world r).
      split; [left|done].
    + right. exists c', res, w'. split; [by right|done].
    + by left.
    + right. exists c', res, w'. split; [by right|done].
Qed.

Lemma range_containers_size (containers : list hcsshim.ContainerProperties)
    stats w :
  size (value (range_containers shim containers stats w)) <=
    size stats + length containers.
Proof.
  revert stats w. induction containers as [|c rest IH]; intros stats w.
  - cbn. lia.
  - rewrite range_containers_cons. cbv zeta. cbn [length].
    destruct (gets_entry _).
    + etransitivity; [apply IH|]. rewrite map_size_insert.
      destruct (stats !! hcsshim.ID c); unfold id; lia.
    + etransitivity; [apply IH|]. lia.
Qed.
End CollectMore.

Section CollectHandles.
Context {World : Type}.
Variable shim : hcsShimInterface World.
Implicit Types (w : World) (c : hcsshim.ContainerProperties).
Implicit Types stats : gmap string (ptr statsapi.NetworkStats).

Lemma fetch_closes_handed_out c w :
  closed (trace (fetchContainerStats shim c w)) =
    match (OpenContainer shim (hcsshim.ID c) w).1 with
    | inl container => [handle container]
    | inr _ => []
    end.
Proof.
  destruct (OpenContainer shim (hcsshim.ID c) w) as [[container|err] w1] eqn:Hopen.
  - rewrite (fetch_opened shim c w container w1 Hopen).
    destruct (Statistics container w1) as [res w2].
    destruct (Close container w2) as [closeErr w3]. reflexivity.
  - rewrite (fetch_open_failed shim c w err w1 Hopen). reflexivity.
Qed.

Lemma range_containers_closes_handed_out
    (containers : list hcsshim.ContainerProperties) stats w :
  closed (trace (range_containers shim containers stats w)) =
    handed_out shim containers w.
Proof.
  revert stats w. induction containers as [|c rest IH]; intros stats w;
    [reflexivity|].
  rewrite range_containers_trace_cons. cbv zeta. cbn [handed_out].
  unfold closed at 1. rewrite omap_app. fold (closed (trace (fetchContainerStats shim c w))).
  rewrite fetch_closes_handed_out. f_equal.
  destruct (gets_entry (value (fetchContainerStats shim c w))).
  - rewrite omap_app, hcsStatsToNetworkStats_trace.
    destruct (lookup_events_no_container_call
                (elems (hcsshim.Network (value (fetchContainerStats shim c w)).1))
                (value (resolutions shim
                          (elems (hcsshim.Network (value (fetchContainerStats shim c w)).1))
                          (world (fetchContainerStats shim c w)))))
      as (_ & _ & Hc & _).
    unfold closed in Hc. rewrite Hc. apply IH.
  - rewrite omap_app.
    destruct (value (fetchContainerStats shim c w)).2; apply IH.
Qed.
End CollectHandles.

Section CollectExtras.
Context {World : Type}.
Variable windowshim : hcsShimInterface World.
Implicit Types (w : World) (c : hcsshim.ContainerProperties).
Implicit Types (p : criStatsProvider World).
Implicit Types stats : gmap string (ptr statsapi.NetworkStats).

Lemma listContainerNetworkStats_trace p w :
  let shim := newHcsShim windowshim p in
  let en := GetContainers shim container_query w in
  trace (listContainerNetworkStats windowshim p w) =
    EvGetContainers container_query
    :: match en.1.2 with
       | Some _ => []
       | None => trace (range_containers shim (elems en.1.1) ∅ en.2)
       end.
Proof.
  cbv zeta. rewrite listContainerNetworkStats_run. cbv zeta.
  destruct (GetContainers _ _ _).1.2; cbn [trace snd]; [reflexivity|].
  by rewrite app_nil_r.
Qed.

(** X10: when the host enumerates no container (a nil or an empty slice),
    [listContainerNetworkStats] returns an empty, non-nil map and no
    error, and the enumeration is the only call it makes. *)
Theorem listContainerNetworkStats_no_container
    p w (containers : slice hcsshim.ContainerProperties) w1 :
  GetContainers (newHcsShim windowshim p) container_query w =
    ((containers, None), w1) ->
  len containers = 0 ->
  listContainerNetworkStats windowshim p w =
    ((Some ∅, None), w1, [EvGetContainers container_query]).
Proof.
  intros Henum Hlen. rewrite listContainerNetworkStats_run. cbv zeta.
  rewrite Henum. cbn [fst snd]. unfold len in Hlen.
  destruct (elems containers); [reflexivity|discriminate].
Qed.

(** X11: a pass enumerates exactly once, with the query for compute
    systems of type "Container", before any other call; it then opens
    every enumerated container exactly once, in the order of the
    enumeration, and opens nothing when the enumeration failed. *)
Theorem listContainerNetworkStats_opens_each_container_once p w :
  let shim := newHcsShim windowshim p in
  let en := GetContainers shim container_query w in
  let t := trace (listContainerNetworkStats windowshim p w) in
  List.hd_error t = Some (EvGetContainers container_query)
  /\ enumerations t = [container_query]
  /\ hcsshim.Types container_query = Some ["Container"]
  /\ opened t = match en.1.2 with
                | Some _ => []
                | None => hcsshim.ID <$> elems en.1.1
                end.
Proof.
  cbv zeta. rewrite listContainerNetworkStats_trace. cbv zeta.
  split; [reflexivity|].
  destruct (GetContainers _ _ _).1.2; [done|].
  destruct (range_containers_calls (newHcsShim windowshim p)
              (elems (GetContainers (newHcsShim windowshim p) container_query w).1.1)
              ∅ (GetContainers (newHcsShim windowshim p) container_query w).2)
    as (Ho & _ & He & _).
  cbv zeta in Ho, He. unfold enumerations, opened in *.
  cbn [omap list_omap]. rewrite Ho, He. done.
Qed.

(** X12: over a whole pass the handles closed are exactly the handles
    the host handed out on a successful [OpenContainer], one [Close] per
    handle handed out and in the same order, and they are the handles
    queried: every container that was opened is closed, and nothing else
    is. *)
Theorem listContainerNetworkStats_closes_what_it_queries p w :
  let shim := newHcsShim windowshim p in
  let en := GetContainers shim container_query w in
  let t := trace (listContainerNetworkStats windowshim p w) in
  closed t = match en.1.2 with
             | Some _ => []
             | None => handed_out shim (elems en.1.1) en.2
             end
  /\ closed t = queried t /\ closes t = length (queried t).
Proof.
  cbv zeta. rewrite listContainerNetworkStats_trace. cbv zeta.
  match goal with |- context [EvGetContainers _ :: ?tl] => set (rest := tl) end.
  assert (Hrest : closed rest = queried rest).
  { unfold rest. destruct (GetContainers _ _ _).1.2; [reflexivity|].
    symmetry. apply range_containers_calls. }
  assert (Hclosed : forall t : list Event, closes t = length (closed t)).
  { intros t. unfold closes, closed.
    induction t as [|[] t IH]; cbn; try rewrite <- IH; reflexivity. }
  rewrite Hclosed.
  change (closed (EvGetContainers container_query :: rest)) with (closed rest).
  change (queried (EvGetContainers container_query :: rest)) with (queried rest).
  split; [|rewrite Hrest; done].
  unfold rest. destruct (GetContainers _ _ _).1.2; [reflexivity|].
  apply range_containers_closes_handed_out.
Qed.

(** X13: a pass logs, at verbosity 4, one line for every container whose
    fetch returned an error, in order, with the container identifier and
    the error, and nothing else at that verbosity. *)
Theorem listContainerNetworkStats_logs_each_failed_container p w :
  let shim := newHcsShim windowshim p in
  let en := GetContainers shim container_query w in
  logged 4 (trace (listContainerNetworkStats windowshim p w)) =
    match en.1.2 with
    | Some _ => []
    | None => failed_containers (fetches shim (elems en.1.1) en.2)
    end.
Proof.
  cbv zeta. rewrite listContainerNetworkStats_trace. cbv zeta.
  destruct (GetContainers _ _ _).1.2; [done|].
  destruct (range_containers_calls (newHcsShim windowshim p)
              (elems (GetContainers (newHcsShim windowshim p) container_query w).1.1)
              ∅ (GetContainers (newHcsShim windowshim p) container_query w).2)
    as (_ & _ & _ & Hl).
  cbv zeta in Hl. unfold logged in *. cbn [omap list_omap]. exact Hl.
Qed.

(** X14: every entry of the map returned by a pass is the result for a
    container of the enumeration with that identifier that was fetched
    without error: it carries the timestamp of that container's
    statistics, the names of its interfaces are pairwise different, its
    default interface is the first of them (the zero value if there is
    none), and it has at most as many interfaces as the container has
    counters. *)
Theorem listContainerNetworkStats_entries_well_formed p w stats :
  let shim := newHcsShim windowshim p in
  let en := GetContainers shim container_query w in
  (value (listContainerNetworkStats windowshim p w)).1 = Some stats ->
  map_Forall (well_formed_entry (fetches shim (elems en.1.1) en.2)) stats.
Proof.
  cbv zeta. unfold well_formed_entry.
  rewrite listContainerNetworkStats_run. cbv zeta.
  destruct (GetContainers _ _ _) as [[containers [err|]] w1]; cbn [value fst snd];
    [discriminate|].
  intros [= <-] id entry Hlook.
  apply range_containers_entry_origin in Hlook
    as [Hlook|(c & res & w' & Hin & Hid & Hres & ->)].
  { rewrite lookup_empty in Hlook. discriminate. }
  apply bool_decide_eq_true_1 in Hres as [Herr Hlen].
  exists c, res. eexists. split; [exact Hin|]. split; [exact Hid|].
  split; [exact Herr|]. split; [apply hcsStatsToNetworkStats_value|].
  cbn [statsapi.Time statsapi.Interfaces statsapi.InterfaceStats_ elems].
  split; [reflexivity|]. split; [apply first_wins_NoDup|].
  split; [reflexivity|]. split; [exact Hlen|].
  unfold len at 1. cbn [elems].
  etransitivity; [apply first_wins_length|]. apply resolved_length.
Qed.

(** X15: the map returned by a pass has entries only for identifiers of
    enumerated containers, and at most as many entries as containers were
    enumerated. *)
Theorem listContainerNetworkStats_only_enumerated p w stats :
  let en := GetContainers (newHcsShim windowshim p) container_query w in
  (value (listContainerNetworkStats windowshim p w)).1 = Some stats ->
  (forall id : string,
     is_Some (stats !! id) -> id ∈ hcsshim.ID <$> elems en.1.1)
  /\ size stats <= len en.1.1.
Proof.
  cbv zeta. rewrite listContainerNetworkStats_run. cbv zeta.
  destruct (GetContainers _ _ _) as [[containers [err|]] w1]; cbn [value fst snd];
    [discriminate|].
  intros [= <-]. split.
  - intros id [entry Hlook].
    apply range_containers_entry_origin in Hlook
      as [Hlook|(c & res & w' & Hin & Hid & _)].
    { rewrite lookup_empty in Hlook. discriminate. }
    apply list_elem_of_fmap. exists c. split; [done|].
    eapply fetches_container, Hin.
  - etransitivity; [apply range_containers_size|].
    rewrite map_size_empty. unfold len. lia.
Qed.
End CollectExtras.

(** ** The further properties on the test double *)

Lemma fetchContainerStats_reports_every_failure_witness :
  OpenContainer fake "D" [] = (inl (fake_Container fake_D), [4%N])
  /\ Statistics (fake_Container fake_D) [4%N] =
       ((hcsshim.zero_Statistics, Some (errorString "stats failed")), [4%N])
  /\ Close (fake_Container fake_D) [4%N] =
       (Some (errorString "close failed"), [])
  /\ (value (fetchContainerStats fake (props "D") [])).1 = hcsshim.zero_Statistics
  /\ (exists err, (value (fetchContainerStats fake (props "D") [])).2 = Some err
                  /\ names_cause (Error err) "stats failed")
  /\ (exists err, (value (fetchContainerStats fake (props "D") [])).2 = Some err
                  /\ names_cause (Error err) "close failed").
Proof.
  split; [reflexivity|]. split; [reflexivity|]. split; [reflexivity|].
  destruct (fetchContainerStats_reports_every_failure fake (props "D") []
              (fake_Container fake_D) [4%N]
              (hcsshim.zero_Statistics, Some (errorString "stats failed")) [4%N]
              (Some (errorString "close failed")) [] eq_refl eq_refl eq_refl)
    as (Hstats & Hquery & Hclose).
  split; [exact Hstats|]. split.
  - exact (Hquery (errorString "stats failed") eq_refl).
  - exact (Hclose (errorString "close failed") eq_refl).
Defined.

Lemma hcsStatsToNetworkStats_keeps_distinct_adapters_witness :
  NoDup (statsapi.Name <$>
           resolved (value (resolutions fake
                              [counter "ep1" 1 2; counter "ep2" 3 4;
                               counter "ep3" 5 6] [])))
  /\ exists result,
       value (hcsStatsToNetworkStats fake t0
                (Some [counter "ep1" 1 2; counter "ep2" 3 4; counter "ep3" 5 6])
                []) = Some result
       /\ statsapi.Interfaces result =
            Some [iface "eth0" 1 2; iface "eth1" 5 6].
Proof.
  assert (Hnodup : NoDup (statsapi.Name <$>
           resolved (value (resolutions fake
                              [counter "ep1" 1 2; counter "ep2" 3 4;
                               counter "ep3" 5 6] [])))).
  { apply (bool_decide_unpack _). vm_compute. reflexivity. }
  split; [exact Hnodup|].
  exact (hcsStatsToNetworkStats_keeps_distinct_adapters fake t0
           (Some [counter "ep1" 1 2; counter "ep2" 3 4; counter "ep3" 5 6]) []
           Hnodup).
Defined.

Lemma listContainerNetworkStats_no_container_witness :
  GetContainers fake_idle container_query [] = ((Some [], None), [])
  /\ listContainerNetworkStats fake_idle fake_idle_provider [] =
       ((Some ∅, None), [], [EvGetContainers container_query]).
Proof.
  split; [reflexivity|].
  exact (listContainerNetworkStats_no_container fake_idle fake_idle_provider []
           (Some []) [] eq_refl eq_refl).
Defined.

Lemma listContainerNetworkStats_entries_well_formed_witness :
  (value (listContainerNetworkStats fake fake_provider [])).1 = Some fake_stats
  /\ map_Forall
       (well_formed_entry (fetches fake (List.map fc_props fake_containers) []))
       fake_stats.
Proof.
  assert (Hpass : (value (listContainerNetworkStats fake fake_provider [])).1 =
                    Some fake_stats).
  { vm_compute. reflexivity. }
  split; [exact Hpass|].
  exact (listContainerNetworkStats_entries_well_formed fake fake_provider []
           fake_stats Hpass).
Defined.

Lemma listContainerNetworkStats_only_enumerated_witness :
  (value (listContainerNetworkStats fake fake_provider [])).1 = Some fake_stats
  /\ (forall id : string,
        is_Some (fake_stats !! id) ->
        id ∈ hcsshim.ID <$> List.map fc_props fake_containers)
  /\ size fake_stats <= 7.
Proof.
  assert (Hpass : (value (listContainerNetworkStats fake fake_provider [])).1 =
                    Some fake_stats).
  { vm_compute. reflexivity. }
  split; [exact Hpass|].
  exact (listContainerNetworkStats_only_enumerated fake fake_provider []
           fake_stats Hpass).
Defined.

Lemma fetchContainerStats_succeeds_iff_witness :
  OpenContainer fake "A" [] =
    (inl (fake_Container (healthy "A" 1 [counter "ep1" 100 50])), [1%N])
  /\ Statistics (fake_Container (healthy "A" 1 [counter "ep1" 100 50])) [1%N] =
       (({| hcsshim.Timestamp := t0;
            hcsshim.Network := Some [counter "ep1" 100 50] |}, None), [1%N])
  /\ Close (fake_Container (healthy "A" 1 [counter "ep1" 100 50])) [1%N] =
       (None, [])
  /\ value (fetchContainerStats fake (props "A") []) =
       ({| hcsshim.Timestamp := t0;
           hcsshim.Network := Some [counter "ep1" 100 50] |}, None)
  /\ world (fetchContainerStats fake (props "A") []) = [].
Proof.
  split; [reflexivity|]. split; [reflexivity|]. split; [reflexivity|].
  exact (proj2 (fetchContainerStats_succeeds_iff fake (props "A") [])
           (fake_Container (healthy "A" 1 [counter "ep1" 100 50])) [1%N]
           {| hcsshim.Timestamp := t0;
              hcsshim.Network := Some [counter "ep1" 100 50] |}
           [1%N] [] eq_refl eq_refl eq_refl).
Defined.

Example fake_pass_closes_handed_out :
  handed_out fake (List.map fc_props fake_containers) [] = [1; 3; 4; 5; 6; 7]%N
  /\ closed (trace (listContainerNetworkStats fake fake_provider [])) =
       [1; 3; 4; 5; 6; 7]%N
  /\ opened (trace (listContainerNetworkStats fake fake_provider [])) =
       ["A"; "B"; "C"; "D"; "E"; "F"; "G"].
Proof. split; [|split]; vm_compute; reflexivity. Qed.
